(** * Kubernetes edge-computing framework: the orchestrator's control plane

    A shallow embedding of the in-memory control-plane logic of the central
    orchestrator: the node registry with its health sweep, the workload
    scheduler, the workload handlers and the credential manager.  The
    repository carries two variants of the orchestrator, one in Go and one in
    JavaScript; both are embedded, in [Module Go] and [Module Js].

    Conventions of the embedding
    - A Go [map] and a JavaScript [Map] are finite maps ([gmap]).  Values that
      the Go code reaches through pointers stored in a map are updated in
      place in the map.
    - A [range] loop over a Go map visits the entries in an unspecified order;
      a function that depends on the order takes the enumeration as a list.
    - A point in time is an integer count of clock units since the epoch
      (nanoseconds in Go, milliseconds in JavaScript).  One operation observes
      the clock as one instant [now]; the issuance of a token and of a
      certificate, whose results depend on it, take each reading of the clock
      as an input of its own.
    - Values delivered by the random source (identifiers, token secrets, keys)
      are inputs of the operation that draws them.
    - A Go run-time panic is the outcome [Panic]; it is never caught by the
      code embedded here.
    - The logger is not part of the state; log lines are left out. *)

From stdpp Require Import gmap strings list fin_maps.
From Stdlib Require Import ZArith.

Local Open Scope string_scope.
Local Open Scope list_scope.
Set Warnings "-clear-no-such-hyp".

(** ** Outcome of a Go computation: a value, or a run-time panic *)

Inductive outcome (A : Type) : Type :=
| Ok (a : A)
| Panic (msg : string).
Arguments Ok {A} a.
Arguments Panic {A} msg.

Definition obind {A B : Type} (m : outcome A) (k : A → outcome B) : outcome B :=
  match m with
  | Ok a => k a
  | Panic msg => Panic msg
  end.

Notation "x ←! m ; k" := (obind m (λ x, k))
  (at level 20, m at level 100, k at level 200, right associativity, only parsing).

Module Go.

(** *** Durations of package [time], in nanoseconds *)

Definition Second : Z := 1000000000.
Definition Minute : Z := 60 * Second.
Definition Hour : Z := 60 * Minute.

(** *** The data model (types.go) *)

Definition NodeStatusOnline : string := "online".
Definition NodeStatusOffline : string := "offline".
Definition NodeStatusDegraded : string := "degraded".
Definition NodeStatusMaintenance : string := "maintenance".

(** [EdgeNode].  [Status] has the Go type [NodeStatus], a string.  [Labels] is
    a Go map; reading a nil map behaves as reading the empty map.  The field
    [Resources] (capacity and usage figures copied from heartbeats) is read by
    no operation embedded here and is left out. *)
Record EdgeNode : Type := mkEdgeNode {
  ID : string;
  Name : string;
  Address : string;
  Status : string;
  LastHeartbeat : Z;
  Labels : gmap string string;
  Capabilities : list string;
  Region : string;
  Zone : string;
  KubernetesVersion : string;
  ContainerRuntime : string;
  CreatedAt : Z;
  UpdatedAt : Z
}.

Definition WorkloadStatusPending : string := "pending".
Definition WorkloadStatusRunning : string := "running".
Definition WorkloadStatusCompleted : string := "completed".
Definition WorkloadStatusFailed : string := "failed".
Definition WorkloadStatusStopped : string := "stopped".

Definition PlacementStrategyEdgeFirst : string := "edge-first".
Definition PlacementStrategyCloudFirst : string := "cloud-first".
Definition PlacementStrategyLoadBalance : string := "load-balance".
Definition PlacementStrategyLatency : string := "latency-aware".
Definition PlacementStrategyResource : string := "resource-aware".

Record PlacementConstraint : Type := mkConstraint {
  Key : string;
  Operator : string;
  Values : list string
}.

Record PlacementPreference : Type := mkPreference {
  Weight : Z;
  Terms : PlacementConstraint
}.

Record PlacementPolicy : Type := mkPolicy {
  Strategy : string;
  Constraints : list PlacementConstraint;
  Preferences : list PlacementPreference
}.

Record WorkloadResources : Type := mkWorkloadResources {
  RequestsCPU : string;
  RequestsMemory : string;
  LimitsCPU : string;
  LimitsMemory : string
}.

Record WorkloadDeployment : Type := mkDeployment {
  dNodeID : string;
  dStatus : string;
  dReplicas : Z;
  dDeployedAt : Z;
  dUpdatedAt : Z
}.

(** [Workload].  [Replicas] is an [int32].  A map-typed field is [None] when
    the Go map is nil. *)
Record Workload : Type := mkWorkload {
  wID : string;
  wName : string;
  wNamespace : string;
  wType : string;
  wImage : string;
  wReplicas : Z;
  wResources : WorkloadResources;
  wEnvironment : option (gmap string string);
  wLabels : option (gmap string string);
  wSelector : option (gmap string string);
  wPlacement : PlacementPolicy;
  wStatus : string;
  wDeployments : list WorkloadDeployment;
  wCreatedAt : Z;
  wUpdatedAt : Z
}.

Definition int32_range (z : Z) : Prop := (-2147483648 ≤ z ≤ 2147483647)%Z.

(** Field assignments through the pointer to a workload or a node. *)

Definition set_wDeployments (w : Workload) (ds : list WorkloadDeployment) : Workload :=
  mkWorkload (wID w) (wName w) (wNamespace w) (wType w) (wImage w) (wReplicas w)
    (wResources w) (wEnvironment w) (wLabels w) (wSelector w) (wPlacement w)
    (wStatus w) ds (wCreatedAt w) (wUpdatedAt w).

Definition set_wStatus (w : Workload) (s : string) : Workload :=
  mkWorkload (wID w) (wName w) (wNamespace w) (wType w) (wImage w) (wReplicas w)
    (wResources w) (wEnvironment w) (wLabels w) (wSelector w) (wPlacement w)
    s (wDeployments w) (wCreatedAt w) (wUpdatedAt w).

Definition set_wUpdatedAt (w : Workload) (t : Z) : Workload :=
  mkWorkload (wID w) (wName w) (wNamespace w) (wType w) (wImage w) (wReplicas w)
    (wResources w) (wEnvironment w) (wLabels w) (wSelector w) (wPlacement w)
    (wStatus w) (wDeployments w) (wCreatedAt w) t.

Definition set_wReplicas (w : Workload) (r : Z) : Workload :=
  mkWorkload (wID w) (wName w) (wNamespace w) (wType w) (wImage w) r
    (wResources w) (wEnvironment w) (wLabels w) (wSelector w) (wPlacement w)
    (wStatus w) (wDeployments w) (wCreatedAt w) (wUpdatedAt w).

Definition set_Status (n : EdgeNode) (s : string) : EdgeNode :=
  mkEdgeNode (ID n) (Name n) (Address n) s (LastHeartbeat n) (Labels n)
    (Capabilities n) (Region n) (Zone n) (KubernetesVersion n)
    (ContainerRuntime n) (CreatedAt n) (UpdatedAt n).

Definition set_UpdatedAt (n : EdgeNode) (t : Z) : EdgeNode :=
  mkEdgeNode (ID n) (Name n) (Address n) (Status n) (LastHeartbeat n) (Labels n)
    (Capabilities n) (Region n) (Zone n) (KubernetesVersion n)
    (ContainerRuntime n) (CreatedAt n) t.

(** *** Slices *)

(** The slice expression [s[:high]].  Go panics unless [0 <= high <= cap(s)];
    the capacity is taken to be the length, which is exact wherever [high]
    does not exceed the length. *)
Definition slice_to {A : Type} (s : list A) (high : Z) : outcome (list A) :=
  if ((high <? 0) || (Z.of_nat (length s) <? high))%Z
  then Panic "slice bounds out of range"
  else Ok (take (Z.to_nat high) s).

(** *** The scheduler (orchestrator.go) *)

(** [contains]: linear search of a string in a slice. *)
Fixpoint contains (slice : list string) (item : string) : bool :=
  match slice with
  | [] => false
  | s :: rest => if String.eqb s item then true else contains rest item
  end.

(** [nodeMatchesConstraints]: the loop returns [false] at the first constraint
    that fails and [true] when the constraints are exhausted.  The field
    [Operator] is not read. *)
Fixpoint nodeMatchesConstraints (node : EdgeNode)
    (constraints : list PlacementConstraint) : bool :=
  match constraints with
  | [] => true
  | constraint :: rest =>
      if String.eqb (Key constraint) "region" then
        if negb (contains (Values constraint) (Region node)) then false
        else nodeMatchesConstraints node rest
      else if String.eqb (Key constraint) "zone" then
        if negb (contains (Values constraint) (Zone node)) then false
        else nodeMatchesConstraints node rest
      else
        match Labels node !! Key constraint with
        | Some labelValue =>
            if negb (contains (Values constraint) labelValue) then false
            else nodeMatchesConstraints node rest
        | None => false
        end
  end.

(** The filtering loop of [selectNodesForWorkload]: [nodes] is the registry in
    the order the [range] loop visits it, [candidates] the slice built so far. *)
Fixpoint collectCandidates (nodes : list EdgeNode)
    (constraints : list PlacementConstraint) (candidates : list EdgeNode)
    : list EdgeNode :=
  match nodes with
  | [] => candidates
  | node :: rest =>
      if String.eqb (Status node) NodeStatusOnline
         && nodeMatchesConstraints node constraints
      then collectCandidates rest constraints (candidates ++ [node])
      else collectCandidates rest constraints candidates
  end.

(** [selectEdgeFirstNodes]. *)
Definition selectEdgeFirstNodes (candidates : list EdgeNode) (workload : Workload)
    : outcome (list EdgeNode) :=
  if (length candidates =? 0)%nat then Ok []
  else
    let maxNodes := wReplicas workload in
    let maxNodes := if (maxNodes =? 0)%Z then 1%Z else maxNodes in
    if (Z.of_nat (length candidates) <=? maxNodes)%Z then Ok candidates
    else slice_to candidates maxNodes.

(** [selectLoadBalancedNodes] and [selectResourceAwareNodes] forward to
    [selectEdgeFirstNodes]. *)
Definition selectLoadBalancedNodes (candidates : list EdgeNode) (workload : Workload)
    : outcome (list EdgeNode) :=
  selectEdgeFirstNodes candidates workload.

Definition selectResourceAwareNodes (candidates : list EdgeNode) (workload : Workload)
    : outcome (list EdgeNode) :=
  selectEdgeFirstNodes candidates workload.

(** [selectNodesForWorkload]: [nodes] is the registry as enumerated by this
    call. *)
Definition selectNodesForWorkload (nodes : list EdgeNode) (workload : Workload)
    : outcome (list EdgeNode) :=
  let candidates := collectCandidates nodes (Constraints (wPlacement workload)) [] in
  let strategy := Strategy (wPlacement workload) in
  if String.eqb strategy PlacementStrategyEdgeFirst then
    selectEdgeFirstNodes candidates workload
  else if String.eqb strategy PlacementStrategyLoadBalance then
    selectLoadBalancedNodes candidates workload
  else if String.eqb strategy PlacementStrategyResource then
    selectResourceAwareNodes candidates workload
  else
    selectEdgeFirstNodes candidates workload.

(** The deployment loop of [scheduleWorkload]: one record appended per node. *)
Fixpoint deployTo (now : Z) (nodes : list EdgeNode) (workload : Workload) : Workload :=
  match nodes with
  | [] => workload
  | node :: rest =>
      let deployment := mkDeployment (ID node) WorkloadStatusRunning 1 now now in
      deployTo now rest
        (set_wDeployments workload (wDeployments workload ++ [deployment]))
  end.

(** [scheduleWorkload]: the workload after the call, and the returned error
    ([None] for Go's nil). *)
Definition scheduleWorkload (now : Z) (registry : list EdgeNode) (workload : Workload)
    : outcome (Workload * option string) :=
  nodes ←! selectNodesForWorkload registry workload;
  if (length nodes =? 0)%nat then
    Ok (workload, Some ("no suitable nodes found for workload " +:+ wName workload))
  else
    let workload := deployTo now nodes workload in
    let workload := set_wStatus workload WorkloadStatusRunning in
    let workload := set_wUpdatedAt workload now in
    Ok (workload, None).

(** [scheduleWorkloads]: one scheduling tick.  [keys] is the order in which
    the [range] loop visits the workload map, and [registryAt k] the order in
    which the call made for workload [k] enumerates the node registry.  A
    returned error is logged and the loop goes on. *)
Fixpoint scheduleWorkloadsRange (now : Z) (registryAt : string → list EdgeNode)
    (keys : list string) (workloads : gmap string Workload)
    : outcome (gmap string Workload) :=
  match keys with
  | [] => Ok workloads
  | k :: rest =>
      match workloads !! k with
      | None => scheduleWorkloadsRange now registryAt rest workloads
      | Some workload =>
          if String.eqb (wStatus workload) WorkloadStatusPending then
            r ←! scheduleWorkload now (registryAt k) workload;
            scheduleWorkloadsRange now registryAt rest (<[k := r.1]> workloads)
          else scheduleWorkloadsRange now registryAt rest workloads
      end
  end.

Definition scheduleWorkloads (now : Z) (registryAt : string → list EdgeNode)
    (workloads : gmap string Workload) : outcome (gmap string Workload) :=
  scheduleWorkloadsRange now registryAt (map_to_list workloads).*1 workloads.


(** *** The health sweep (orchestrator.go) *)

(** The body of the loop of [checkNodeHealth] applied to one node.
    [time.Since] saturates at the ends of the [Duration] range, which does
    not change the outcome of the comparison with two minutes. *)
Definition checkOneNode (now : Z) (node : EdgeNode) : EdgeNode :=
  if (now - LastHeartbeat node >? 2 * Minute)%Z then
    if negb (String.eqb (Status node) NodeStatusOffline) then
      let node := set_Status node NodeStatusOffline in
      let node := set_UpdatedAt node now in
      node
    else node
  else node.

(** [checkNodeHealth]: every node of the registry is visited once and updated
    through its pointer; the keys of the map are not touched. *)
Definition checkNodeHealth (now : Z) (nodes : gmap string EdgeNode)
    : gmap string EdgeNode :=
  checkOneNode now <$> nodes.

(** *** The workload handlers *)

(** Request bodies.  A field absent from the JSON document has the zero value
    of its type. *)
Record WorkloadDeploymentRequest : Type := mkDeploymentRequest {
  rName : string;
  rNamespace : string;
  rType : string;
  rImage : string;
  rReplicas : Z;
  rResources : WorkloadResources;
  rEnvironment : option (gmap string string);
  rLabels : option (gmap string string);
  rPlacement : PlacementPolicy
}.

Record ScaleWorkloadRequest : Type := mkScaleRequest {
  sReplicas : Z
}.

(** [ShouldBindJSON] on a decoded body: the struct tag [binding:"required"]
    rejects a field that holds the zero value of its type.  The result lists
    the fields that failed; the binding error is nil when it is empty. *)
Definition requiredString (field value : string) : list string :=
  if String.eqb value "" then [field] else [].

Definition requiredInt (field : string) (value : Z) : list string :=
  if (value =? 0)%Z then [field] else [].

Definition bindWorkloadDeploymentRequest (req : WorkloadDeploymentRequest)
    : list string :=
  requiredString "Name" (rName req)
  ++ requiredString "Type" (rType req)
  ++ requiredString "Image" (rImage req).

Definition bindScaleWorkloadRequest (req : ScaleWorkloadRequest) : list string :=
  requiredInt "Replicas" (sReplicas req).

(** What a handler writes to the client. *)
Inductive response : Type :=
| StatusCreated (id : string) (workload : Workload)
| StatusBadRequest (failed : list string)
| StatusNotFound (error : string)
| StatusOK (message : string) (workload : Workload).

Definition set_wNamespace (w : Workload) (ns : string) : Workload :=
  mkWorkload (wID w) (wName w) ns (wType w) (wImage w) (wReplicas w)
    (wResources w) (wEnvironment w) (wLabels w) (wSelector w) (wPlacement w)
    (wStatus w) (wDeployments w) (wCreatedAt w) (wUpdatedAt w).

Definition set_wLabels (w : Workload) (m : option (gmap string string)) : Workload :=
  mkWorkload (wID w) (wName w) (wNamespace w) (wType w) (wImage w) (wReplicas w)
    (wResources w) (wEnvironment w) m (wSelector w) (wPlacement w)
    (wStatus w) (wDeployments w) (wCreatedAt w) (wUpdatedAt w).

Definition set_wEnvironment (w : Workload) (m : option (gmap string string)) : Workload :=
  mkWorkload (wID w) (wName w) (wNamespace w) (wType w) (wImage w) (wReplicas w)
    (wResources w) m (wLabels w) (wSelector w) (wPlacement w)
    (wStatus w) (wDeployments w) (wCreatedAt w) (wUpdatedAt w).

Definition set_wSelector (w : Workload) (m : option (gmap string string)) : Workload :=
  mkWorkload (wID w) (wName w) (wNamespace w) (wType w) (wImage w) (wReplicas w)
    (wResources w) (wEnvironment w) (wLabels w) m (wPlacement w)
    (wStatus w) (wDeployments w) (wCreatedAt w) (wUpdatedAt w).

Definition set_wStrategy (w : Workload) (s : string) : Workload :=
  mkWorkload (wID w) (wName w) (wNamespace w) (wType w) (wImage w) (wReplicas w)
    (wResources w) (wEnvironment w) (wLabels w) (wSelector w)
    (mkPolicy s (Constraints (wPlacement w)) (Preferences (wPlacement w)))
    (wStatus w) (wDeployments w) (wCreatedAt w) (wUpdatedAt w).

(** The defaults of [DeployWorkload], in the order of the source. *)
Definition applyDefaults (workload : Workload) : Workload :=
  let workload :=
    if String.eqb (wNamespace workload) "" then set_wNamespace workload "default"
    else workload in
  let workload :=
    if (wReplicas workload =? 0)%Z then set_wReplicas workload 1 else workload in
  let workload :=
    match wLabels workload with
    | None => set_wLabels workload (Some ∅)
    | Some _ => workload
    end in
  let workload :=
    match wEnvironment workload with
    | None => set_wEnvironment workload (Some ∅)
    | Some _ => workload
    end in
  let workload :=
    if String.eqb (Strategy (wPlacement workload)) ""
    then set_wStrategy workload PlacementStrategyEdgeFirst
    else workload in
  workload.

(** [DeployWorkload]: [workloadID] is the identifier drawn by [generateID]. *)
Definition DeployWorkload (workloadID : string) (now : Z)
    (req : WorkloadDeploymentRequest) (workloads : gmap string Workload)
    : response * gmap string Workload :=
  match bindWorkloadDeploymentRequest req with
  | (_ :: _) as failed => (StatusBadRequest failed, workloads)
  | [] =>
      let workload :=
        mkWorkload workloadID (rName req) (rNamespace req) (rType req) (rImage req)
          (rReplicas req) (rResources req) (rEnvironment req) (rLabels req) None
          (rPlacement req) WorkloadStatusPending [] now now in
      let workload := applyDefaults workload in
      let workload :=
        set_wSelector workload
          (Some (<["workload-id" := workloadID]> (<["app" := wName workload]> ∅))) in
      (StatusCreated workloadID workload, <[workloadID := workload]> workloads)
  end.

(** [ScaleWorkload]. *)
Definition ScaleWorkload (now : Z) (workloadID : string)
    (req : ScaleWorkloadRequest) (workloads : gmap string Workload)
    : response * gmap string Workload :=
  match bindScaleWorkloadRequest req with
  | (_ :: _) as failed => (StatusBadRequest failed, workloads)
  | [] =>
      match workloads !! workloadID with
      | None => (StatusNotFound "Workload not found", workloads)
      | Some workload =>
          let workload := set_wReplicas workload (sReplicas req) in
          let workload := set_wStatus workload WorkloadStatusPending in
          let workload := set_wUpdatedAt workload now in
          (StatusOK "Workload scaled successfully" workload,
           <[workloadID := workload]> workloads)
      end
  end.

(** *** Certificates *)

Definition CertValidityPeriod : Z := 365 * 24 * Hour.

(** The X.509 and PEM layers are the Go standard library's and are embedded
    symbolically: a DER byte string is identified with the structure it
    holds, and a PEM byte string with the sequence of blocks it holds.  What
    the encoding loses is written out: an instant is encoded in whole
    seconds.  A failure of a library call is an input of the operation that
    makes the call, with the text of the library's error.
    Of the certificate template the serial number, the common name and the
    validity window are kept; the key usages and the subject alternative
    names are read by no operation embedded here. *)
Record rsaPrivateKey : Type := mkKey {
  PublicKey : Z;
  PrivateExponent : Z
}.

Record x509Certificate : Type := mkX509 {
  SerialNumber : Z;
  CommonName : string;
  NotBefore : Z;
  NotAfter : Z
}.

Inductive der : Type :=
| DerCertificate (tbs : x509Certificate) (subjectKey : Z) (signedBy : rsaPrivateKey)
| DerPrivateKey (key : rsaPrivateKey).

Record pemBlock : Type := mkBlock {
  blockType : string;
  blockBytes : der
}.

Definition pemEncodeToMemory (b : pemBlock) : list pemBlock := [b].

Definition pemDecode (data : list pemBlock) : option pemBlock := head data.

(** The whole second an instant falls in: the instant as an ASN.1 time holds
    it. *)
Definition truncateToSecond (t : Z) : Z := (t / Second * Second)%Z.

(** [x509.CreateCertificate]: [failure] is the error of the call, [None] when
    it succeeds.  The two instants of the validity window are encoded in whole
    seconds. *)
Definition x509CreateCertificate (failure : option string)
    (template parent : x509Certificate) (pub : Z) (priv : rsaPrivateKey)
    : der + string :=
  match failure with
  | Some e => inr e
  | None =>
      inl (DerCertificate
             (mkX509 (SerialNumber template) (CommonName template)
                (truncateToSecond (NotBefore template))
                (truncateToSecond (NotAfter template)))
             pub priv)
  end.

(** [x509.MarshalPKCS8PrivateKey]. *)
Definition x509MarshalPKCS8PrivateKey (failure : option string) (key : rsaPrivateKey)
    : der + string :=
  match failure with
  | Some e => inr e
  | None => inl (DerPrivateKey key)
  end.

(** [x509.ParseCertificate]: the certificate a DER string holds, or the
    parser's error for a string that holds a PKCS #8 key. *)
Definition x509ParseCertificate (bytes : der) : x509Certificate + string :=
  match bytes with
  | DerCertificate tbs _ _ => inl tbs
  | DerPrivateKey _ => inr "x509: malformed tbs certificate"
  end.

Record Certificate : Type := mkCertificate {
  cID : string;
  cNodeID : string;
  cCertificate : list pemBlock;
  cPrivateKey : list pemBlock;
  cIssuedAt : Z;
  cExpiresAt : Z
}.

(** [GenerateCertificate]: [keygen] is the result of [rsa.GenerateKey],
    [createFailure] and [marshalFailure] the errors of the two library calls
    ([None] for success), [certID] the identifier drawn by [generateID], and
    [nowNotBefore] and [nowNotAfter] the two readings of the clock that fill
    the template, in this order.  The result is the certificate or the error,
    with the store after the call. *)
Definition GenerateCertificate (keygen : rsaPrivateKey + string)
    (createFailure marshalFailure : option string) (certID : string)
    (nowNotBefore nowNotAfter : Z) (nodeID commonName : string)
    (certificates : gmap string Certificate)
    : (Certificate + string) * gmap string Certificate :=
  match keygen with
  | inr err => (inr ("failed to generate private key: " +:+ err), certificates)
  | inl privateKey =>
      let template :=
        mkX509 1 commonName nowNotBefore (nowNotAfter + CertValidityPeriod) in
      match x509CreateCertificate createFailure template template
              (PublicKey privateKey) privateKey with
      | inr err => (inr ("failed to create certificate: " +:+ err), certificates)
      | inl certDER =>
          let certPEM := pemEncodeToMemory (mkBlock "CERTIFICATE" certDER) in
          match x509MarshalPKCS8PrivateKey marshalFailure privateKey with
          | inr err => (inr ("failed to marshal private key: " +:+ err), certificates)
          | inl privateKeyDER =>
              let privateKeyPEM :=
                pemEncodeToMemory (mkBlock "PRIVATE KEY" privateKeyDER) in
              let cert :=
                mkCertificate certID nodeID certPEM privateKeyPEM
                  (NotBefore template) (NotAfter template) in
              (inl cert, <[certID := cert]> certificates)
          end
      end
  end.

(** [ValidateClientCertificate]: the returned error, [None] for nil. *)
Definition ValidateClientCertificate (now : Z) (certPEM : list pemBlock)
    : option string :=
  match pemDecode certPEM with
  | None => Some "failed to parse certificate PEM"
  | Some block =>
      match x509ParseCertificate (blockBytes block) with
      | inr err => Some ("failed to parse certificate: " +:+ err)
      | inl cert =>
          if ((now <? NotBefore cert) || (NotAfter cert <? now))%Z
          then Some "certificate is not valid at current time"
          else None
      end
  end.
(** *** The node handlers (orchestrator.go) *)

Record NodeRegistrationRequest : Type := mkRegistrationRequest {
  nrName : string;
  nrAddress : string;
  nrLabels : option (gmap string string);
  nrCapabilities : list string;
  nrRegion : string;
  nrZone : string;
  nrKubernetesVersion : string;
  nrContainerRuntime : string
}.

(** [HeartbeatRequest], without the resource figures that [EdgeNode] leaves
    out.  None of its fields is tagged as required. *)
Record HeartbeatRequest : Type := mkHeartbeatRequest {
  hbStatus : string;
  hbTimestamp : Z
}.

Definition bindNodeRegistrationRequest (req : NodeRegistrationRequest) : list string :=
  requiredString "Name" (nrName req) ++ requiredString "Address" (nrAddress req).

(** What a node handler writes to the client. *)
Inductive nodeResponse : Type :=
| NodeCreated (id : string) (node : EdgeNode)
| NodeBadRequest (failed : list string)
| NodeNotFound (error : string)
| NodeFound (node : EdgeNode)
| NodeList (nodes : list EdgeNode)
| NodeMessage (message : string).

Definition set_Region (n : EdgeNode) (r : string) : EdgeNode :=
  mkEdgeNode (ID n) (Name n) (Address n) (Status n) (LastHeartbeat n) (Labels n)
    (Capabilities n) r (Zone n) (KubernetesVersion n)
    (ContainerRuntime n) (CreatedAt n) (UpdatedAt n).

Definition set_Zone (n : EdgeNode) (z : string) : EdgeNode :=
  mkEdgeNode (ID n) (Name n) (Address n) (Status n) (LastHeartbeat n) (Labels n)
    (Capabilities n) (Region n) z (KubernetesVersion n)
    (ContainerRuntime n) (CreatedAt n) (UpdatedAt n).

Definition set_LastHeartbeat (n : EdgeNode) (t : Z) : EdgeNode :=
  mkEdgeNode (ID n) (Name n) (Address n) (Status n) t (Labels n)
    (Capabilities n) (Region n) (Zone n) (KubernetesVersion n)
    (ContainerRuntime n) (CreatedAt n) (UpdatedAt n).

(** [RegisterNode]: [nodeID] is the identifier drawn by [generateID].  A nil
    label map is replaced by an empty one, which [Labels] does not tell
    apart. *)
Definition RegisterNode (nodeID : string) (now : Z) (req : NodeRegistrationRequest)
    (nodes : gmap string EdgeNode) : nodeResponse * gmap string EdgeNode :=
  match bindNodeRegistrationRequest req with
  | (_ :: _) as failed => (NodeBadRequest failed, nodes)
  | [] =>
      let node :=
        mkEdgeNode nodeID (nrName req) (nrAddress req) NodeStatusOnline now
          (default ∅ (nrLabels req)) (nrCapabilities req) (nrRegion req) (nrZone req)
          (nrKubernetesVersion req) (nrContainerRuntime req) now now in
      let node := if String.eqb (Region node) "" then set_Region node "default" else node in
      let node := if String.eqb (Zone node) "" then set_Zone node "default" else node in
      (NodeCreated nodeID node, <[nodeID := node]> nodes)
  end.

(** [ListNodes]: the nodes in the order the [range] loop visits the map. *)
Definition ListNodes (nodes : gmap string EdgeNode) : nodeResponse :=
  NodeList (map_to_list nodes).*2.

(** [GetNode]. *)
Definition GetNode (nodeID : string) (nodes : gmap string EdgeNode) : nodeResponse :=
  match nodes !! nodeID with
  | None => NodeNotFound "Node not found"
  | Some node => NodeFound node
  end.

(** [UnregisterNode]. *)
Definition UnregisterNode (nodeID : string) (nodes : gmap string EdgeNode)
    : nodeResponse * gmap string EdgeNode :=
  match nodes !! nodeID with
  | None => (NodeNotFound "Node not found", nodes)
  | Some _ => (NodeMessage "Node unregistered successfully", delete nodeID nodes)
  end.

(** [NodeHeartbeat]. *)
Definition NodeHeartbeat (now : Z) (nodeID : string) (req : HeartbeatRequest)
    (nodes : gmap string EdgeNode) : nodeResponse * gmap string EdgeNode :=
  match nodes !! nodeID with
  | None => (NodeNotFound "Node not found", nodes)
  | Some node =>
      let node := set_Status node (hbStatus req) in
      let node := set_LastHeartbeat node now in
      let node := set_UpdatedAt node now in
      (NodeMessage "Heartbeat received", <[nodeID := node]> nodes)
  end.

(** *** Metrics (orchestrator.go and the workload handlers) *)





(** Addition on [int32] wraps around. *)
Definition int32_wrap (z : Z) : Z :=
  ((z + 2147483648) mod 4294967296 - 2147483648)%Z.

Record WorkloadMetrics : Type := mkWorkloadMetrics {
  workload_id : string;
  workload_name : string;
  workload_status : string;
  desired_replicas : Z;
  running_replicas : Z;
  running_deployments : Z;
  total_deployments : Z;
  workload_last_updated : Z
}.

(** The loop of [GetWorkloadMetrics] over the deployment records. *)
Fixpoint countDeployments (deployments : list WorkloadDeployment)
    (runningDeployments totalReplicas : Z) : Z * Z :=
  match deployments with
  | [] => (runningDeployments, totalReplicas)
  | deployment :: rest =>
      if String.eqb (dStatus deployment) WorkloadStatusRunning
      then countDeployments rest (runningDeployments + 1)%Z
             (int32_wrap (totalReplicas + dReplicas deployment))
      else countDeployments rest runningDeployments totalReplicas
  end.

(** [GetWorkloadMetrics]: the metrics, or the error of the 404 answer. *)
Definition GetWorkloadMetrics (workloadID : string) (workloads : gmap string Workload)
    : WorkloadMetrics + string :=
  match workloads !! workloadID with
  | None => inr "Workload not found"
  | Some workload =>
      let counts := countDeployments (wDeployments workload) 0 0 in
      inl (mkWorkloadMetrics (wID workload) (wName workload) (wStatus workload)
             (wReplicas workload) counts.2 counts.1
             (Z.of_nat (length (wDeployments workload))) (wUpdatedAt workload))
  end.

(** *** The other workload handlers *)

Inductive workloadReply : Type :=
| WorkloadFound (workload : Workload)
| WorkloadList (workloads : list Workload)
| WorkloadMessage (message : string)
| WorkloadNotFound (error : string).

(** [ListWorkloads]. *)
Definition ListWorkloads (workloads : gmap string Workload) : workloadReply :=
  WorkloadList (map_to_list workloads).*2.

(** [GetWorkload]. *)
Definition GetWorkload (workloadID : string) (workloads : gmap string Workload)
    : workloadReply :=
  match workloads !! workloadID with
  | None => WorkloadNotFound "Workload not found"
  | Some workload => WorkloadFound workload
  end.

(** [DeleteWorkload]: the status STOPPED and the time stamp are written to the
    workload just before its entry is deleted; the answer does not carry the
    workload, so the map after the call is all that remains. *)
Definition DeleteWorkload (workloadID : string) (workloads : gmap string Workload)
    : workloadReply * gmap string Workload :=
  match workloads !! workloadID with
  | None => (WorkloadNotFound "Workload not found", workloads)
  | Some _ => (WorkloadMessage "Workload deleted successfully", delete workloadID workloads)
  end.

(** *** Revocation and the authentication middleware *)

(** [RevokeCertificate]: the returned error ([None] for nil) and the store. *)
Definition RevokeCertificate (certificateID : string)
    (certificates : gmap string Certificate) : option string * gmap string Certificate :=
  match certificates !! certificateID with
  | None => (Some "certificate not found", certificates)
  | Some _ => (None, delete certificateID certificates)
  end.

(** [strings.HasPrefix] and [strings.TrimPrefix]. *)
Definition HasPrefix (s prefix : string) : bool := String.prefix prefix s.

Definition TrimPrefix (s prefix : string) : string :=
  if HasPrefix s prefix
  then String.substring (String.length prefix) (String.length s - String.length prefix) s
  else s.

(** What the middleware does with a request: hand it on, with the user and
    role it has put in the context, or abort with a status and an error. *)
Inductive authOutcome : Type :=
| AuthNext (user role : option string)
| AuthAbort (code : Z) (error : string).

(** [AuthMiddleware]: [path] is the path of the request URL and [authHeader]
    the value of the Authorization header, empty when the header is absent. *)
Definition AuthMiddleware (path authHeader : string) : authOutcome :=
  if String.eqb path "/health" then AuthNext None None
  else if String.eqb authHeader "" then AuthAbort 401 "Authorization header required"
  else if negb (HasPrefix authHeader "Bearer ") then AuthAbort 401 "Bearer token required"
  else
    let token := TrimPrefix authHeader "Bearer " in
    if String.eqb token "" then AuthAbort 401 "Invalid token"
    else AuthNext (Some "edge-node") (Some "node").

End Go.

(** ** The JavaScript variant *)

Module Js.

(** *** nodeManager.js *)

(** A node object.  [status] is whatever string [updateNodeStatus] was given;
    [lastSeen] is a [Date], in milliseconds.  [capabilities] and [workloads]
    are carried along and read by no operation embedded here. *)
Record Node : Type := mkNode {
  id : string;
  name : string;
  ipAddress : string;
  status : string;
  capabilities : list string;
  lastSeen : Z;
  workloads : list string
}.

Definition set_status (n : Node) (s : string) : Node :=
  mkNode (id n) (name n) (ipAddress n) s (capabilities n) (lastSeen n) (workloads n).

(** The body of the loop of [checkNodesHealth] applied to one entry. *)
Definition checkOneNode (now : Z) (node : Node) : Node :=
  let timeDiff := (now - lastSeen node)%Z in
  if (timeDiff >? 5 * 60 * 1000)%Z then
    if negb (String.eqb (status node) "OFFLINE") then set_status node "OFFLINE"
    else node
  else node.

(** [checkNodesHealth]: every entry is visited once; [nodes.set] stores the
    updated object under the key it already has. *)
Definition checkNodesHealth (now : Z) (nodes : gmap string Node) : gmap string Node :=
  checkOneNode now <$> nodes.

(** *** securityManager.js *)

Record TokenInfo : Type := mkTokenInfo {
  token : string;
  expiresAt : Z;
  createdAt : Z
}.

Definition msPerDay : Z := 24 * 60 * 60 * 1000.

(** Local time, as ECMAScript defines it.  [tza] gives the offset of the
    host's time zone from UTC in milliseconds: [tza t true] is the offset in
    force at the instant [t], [tza t false] the offset in force at the local
    time value [t]. *)
Definition LocalTime (tza : Z → bool → Z) (t : Z) : Z := (t + tza t true)%Z.

Definition UTC (tza : Z → bool → Z) (t : Z) : Z := (t - tza t false)%Z.

(** [date.setDate(date.getDate() + 30)]: the day of the month of the local
    date is raised by thirty while the time within the day is kept, which
    moves the local time value thirty days ahead; the result is converted
    back from local time. *)
Definition setDatePlus30 (tza : Z → bool → Z) (t : Z) : Z :=
  UTC tza (LocalTime tza t + 30 * msPerDay).

(** [generateToken]: [secret] is the hexadecimal rendering of the bytes drawn
    by [crypto.randomBytes], [now] the reading of the clock from which the
    expiry is computed and [created] the later reading stored as
    [createdAt]. *)
Definition generateToken (secret : string) (tza : Z → bool → Z) (now created : Z)
    (nodeId : string) (tokens : gmap string TokenInfo)
    : string * gmap string TokenInfo :=
  let expiresAt := setDatePlus30 tza now in
  (secret, <[nodeId := mkTokenInfo secret expiresAt created]> tokens).

(** [validateToken]. *)
Definition validateToken (now : Z) (nodeId tok : string)
    (tokens : gmap string TokenInfo) : bool :=
  match tokens !! nodeId with
  | None => false
  | Some tokenInfo =>
      if negb (String.eqb (token tokenInfo) tok) then false
      else if (now >? expiresAt tokenInfo)%Z then false
      else true
  end.

(** [revokeToken]. *)
Definition revokeToken (nodeId : string) (tokens : gmap string TokenInfo)
    : bool * gmap string TokenInfo :=
  match tokens !! nodeId with
  | Some _ => (true, delete nodeId tokens)
  | None => (false, tokens)
  end.

(** *** The other operations of nodeManager.js *)

(** The node information handed to [registerNode]; [capabilities] may be
    absent. *)
Record NodeInfo : Type := mkNodeInfo {
  niName : string;
  niIpAddress : string;
  niCapabilities : option (list string)
}.

Definition set_lastSeen (n : Node) (t : Z) : Node :=
  mkNode (id n) (name n) (ipAddress n) (status n) (capabilities n) t (workloads n).

(** [registerNode]: [nodeId] is the identifier drawn by [uuidv4]. *)
Definition registerNode (nodeId : string) (now : Z) (nodeInfo : NodeInfo)
    (nodes : gmap string Node) : string * gmap string Node :=
  let node :=
    mkNode nodeId (niName nodeInfo) (niIpAddress nodeInfo) "REGISTERED"
      (default [] (niCapabilities nodeInfo)) now [] in
  (nodeId, <[nodeId := node]> nodes).

(** [getNode]: [None] for [undefined]. *)
Definition getNode (nodeId : string) (nodes : gmap string Node) : option Node :=
  nodes !! nodeId.

(** [updateNodeStatus]: the updated node, or the message of the error thrown. *)
Definition updateNodeStatus (now : Z) (nodeId newStatus : string)
    (nodes : gmap string Node) : (Node + string) * gmap string Node :=
  match nodes !! nodeId with
  | None => (inr ("Node not found: " +:+ nodeId), nodes)
  | Some node =>
      let node := set_status node newStatus in
      let node := set_lastSeen node now in
      (inl node, <[nodeId := node]> nodes)
  end.

(** [removeNode]. *)
Definition removeNode (nodeId : string) (nodes : gmap string Node)
    : (bool + string) * gmap string Node :=
  match nodes !! nodeId with
  | None => (inr ("Node not found: " +:+ nodeId), nodes)
  | Some _ => (inl true, delete nodeId nodes)
  end.

(** *** workloadManager.js *)

(** A workload object.  A field of the specification that may be [undefined]
    is an [option]; [resources] and [config] are objects that no operation
    reads. *)
Record Workload : Type := mkWorkload {
  wid : string;
  wname : option string;
  wtype : option string;
  wimage : option string;
  wresources : gmap string string;
  wconfig : gmap string string;
  wstatus : string;
  wcreatedAt : Z;
  wupdatedAt : option Z;
  targetNodes : list string
}.




(** [updateWorkloadStatus]. *)
Definition updateWorkloadStatus (now : Z) (workloadId newStatus : string)
    (store : gmap string Workload) : (Workload + string) * gmap string Workload :=
  match store !! workloadId with
  | None => (inr ("Workload not found: " +:+ workloadId), store)
  | Some w =>
      let w :=
        mkWorkload (wid w) (wname w) (wtype w) (wimage w) (wresources w) (wconfig w)
          newStatus (wcreatedAt w) (Some now) (targetNodes w) in
      (inl w, <[workloadId := w]> store)
  end.

(** [deleteWorkload]. *)
Definition deleteWorkload (workloadId : string) (store : gmap string Workload)
    : (bool + string) * gmap string Workload :=
  match store !! workloadId with
  | None => (inr ("Workload not found: " +:+ workloadId), store)
  | Some _ => (inl true, delete workloadId store)
  end.



(** *** monitoringService.js *)

(** A value of a metrics object: a [Date], or anything else, kept as its JSON
    text. *)
Inductive jsValue : Type :=
| JsDate (t : Z)
| JsJSON (text : string).

(** [recordNodeMetrics]: the spread copies the metrics and the key
    "timestamp" is then set. *)
Definition recordNodeMetrics (now : Z) (nodeId : string) (metrics : gmap string jsValue)
    (store : gmap string (gmap string jsValue)) : bool * gmap string (gmap string jsValue) :=
  (true, <[nodeId := <["timestamp" := JsDate now]> metrics]> store).

Definition getNodeMetrics (nodeId : string) (store : gmap string (gmap string jsValue))
    : option (gmap string jsValue) :=
  store !! nodeId.

(** *** The routes (routes.js) *)

(** The state of the orchestrator behind the routes. *)
Record Orchestrator : Type := mkOrchestrator {
  oNodes : gmap string Node;
  oWorkloads : gmap string Workload;
  oTokens : gmap string TokenInfo;
  oMetrics : gmap string (gmap string jsValue)
}.

(** The JSON document of an answer. *)
Inductive body : Type :=
| ErrorBody (error : string)
| HealthBody
| RegisteredBody (nodeId tok : string)
| NodeBody (node : Node)
| WorkloadBody (workload : Workload)
| MetricsBody (metrics : gmap string jsValue)
| SuccessBody.

(** A header or a field of a JSON body that holds a string, [None] when it is
    absent; it is truthy when it is present and not empty. *)
Definition truthy (v : option string) : bool :=
  match v with
  | Some s => negb (String.eqb s "")
  | None => false
  end.

Definition text (v : option string) : string := default "" v.

(** The middleware [authenticate]: the answer that ends the request, or
    [None] when [next] is called. *)
Definition authenticate (now : Z) (xNodeId xAuthToken : option string)
    (tokens : gmap string TokenInfo) : option (Z * body) :=
  if negb (truthy xNodeId) || negb (truthy xAuthToken) then
    Some (401%Z, ErrorBody "Authentication required")
  else if negb (validateToken now (text xNodeId) (text xAuthToken) tokens) then
    Some (403%Z, ErrorBody "Invalid authentication")
  else None.

(** POST /api/nodes/register: [nodeId] and [secret] are the values drawn by
    the node manager and the security manager, [now] the reading of the clock
    taken by the node manager, [issued] and [created] the two taken by the
    security manager. *)
Definition routeRegisterNode (nodeId secret : string) (tza : Z → bool → Z)
    (now issued created : Z)
    (bodyName bodyIpAddress : option string) (bodyCapabilities : option (list string))
    (o : Orchestrator) : (Z * body) * Orchestrator :=
  if negb (truthy bodyName) || negb (truthy bodyIpAddress) then
    ((400%Z, ErrorBody "Missing required node information"), o)
  else
    let r := registerNode nodeId now
               (mkNodeInfo (text bodyName) (text bodyIpAddress) bodyCapabilities)
               (oNodes o) in
    let t := generateToken secret tza issued created r.1 (oTokens o) in
    ((201%Z, RegisteredBody r.1 t.1),
     mkOrchestrator r.2 (oWorkloads o) t.2 (oMetrics o)).

(** GET /api/nodes/:nodeId. *)
Definition routeGetNode (paramNodeId : string) (o : Orchestrator) : Z * body :=
  match getNode paramNodeId (oNodes o) with
  | None => (404%Z, ErrorBody "Node not found")
  | Some node => (200%Z, NodeBody node)
  end.

(** PUT /api/nodes/:nodeId/status, behind [authenticate].  An error thrown by
    the node manager is caught and answered with 500. *)
Definition routeUpdateStatus (now : Z) (xNodeId xAuthToken : option string)
    (paramNodeId : string) (bodyStatus : option string) (o : Orchestrator)
    : (Z * body) * Orchestrator :=
  match authenticate now xNodeId xAuthToken (oTokens o) with
  | Some answer => (answer, o)
  | None =>
      if negb (truthy bodyStatus) then ((400%Z, ErrorBody "Status is required"), o)
      else
        match updateNodeStatus now paramNodeId (text bodyStatus) (oNodes o) with
        | (inl node, nodes) =>
            ((200%Z, NodeBody node),
             mkOrchestrator nodes (oWorkloads o) (oTokens o) (oMetrics o))
        | (inr _, _) => ((500%Z, ErrorBody "Failed to update node status"), o)
        end
  end.



(** POST /api/nodes/:nodeId/metrics, behind [authenticate]; the body parser
    always hands over an object. *)
Definition routeRecordMetrics (now : Z) (xNodeId xAuthToken : option string)
    (paramNodeId : string) (metrics : gmap string jsValue) (o : Orchestrator)
    : (Z * body) * Orchestrator :=
  match authenticate now xNodeId xAuthToken (oTokens o) with
  | Some answer => (answer, o)
  | None =>
      let r := recordNodeMetrics now paramNodeId metrics (oMetrics o) in
      ((200%Z, SuccessBody),
       mkOrchestrator (oNodes o) (oWorkloads o) (oTokens o) r.2)
  end.

(** GET /api/nodes/:nodeId/metrics. *)
Definition routeGetMetrics (paramNodeId : string) (o : Orchestrator) : Z * body :=
  match getNodeMetrics paramNodeId (oMetrics o) with
  | None => (404%Z, ErrorBody "Metrics not found")
  | Some metrics => (200%Z, MetricsBody metrics)
  end.

End Js.

(** ** The Go edge agent (edge-agent/main.go) *)

Module Agent.





(** The heartbeat request that [sendHeartbeat] marshals. *)
Definition heartbeatRequest (now : Z) : Go.HeartbeatRequest :=
  Go.mkHeartbeatRequest Go.NodeStatusOnline now.

End Agent.

(** ** Notions of the specification *)

Import Go.

(** A node is eligible for a workload when it is online and matches every
    placement constraint; the candidate set keeps the order of the registry. *)
Definition eligible (constraints : list PlacementConstraint) (node : EdgeNode) : Prop :=
  Status node = NodeStatusOnline ∧ nodeMatchesConstraints node constraints = true.

#[global] Instance eligible_dec constraints node : Decision (eligible constraints node).
Proof. unfold eligible. apply _. Defined.

Definition candidateSet (registry : list EdgeNode) (workload : Workload) : list EdgeNode :=
  filter (eligible (Constraints (wPlacement workload))) registry.

(** What it means for a node to satisfy one constraint: membership of the
    node's region, zone or label value in the constraint's value list. *)
Definition constraintSatisfied (node : EdgeNode) (c : PlacementConstraint) : Prop :=
  (Key c = "region" ∧ Region node ∈ Values c)
  ∨ (Key c = "zone" ∧ Zone node ∈ Values c)
  ∨ (Key c ≠ "region" ∧ Key c ≠ "zone"
     ∧ ∃ labelValue, Labels node !! Key c = Some labelValue ∧ labelValue ∈ Values c).

(** The deployment record written for a chosen node. *)
Definition recordFor (now : Z) (node : EdgeNode) : WorkloadDeployment :=
  mkDeployment (ID node) WorkloadStatusRunning 1 now now.

(** A workload is harmless for a tick when its replica count is not negative
    or it has no candidate. *)
Definition harmless (registryAt : string → list EdgeNode) (k : string) (w : Workload) : Prop :=
  (0 ≤ wReplicas w)%Z ∨ candidateSet (registryAt k) w = [].

(** ** Sample data *)

Definition sampleNode (i region nodeStatus : string) (heartbeat : Z) : EdgeNode :=
  mkEdgeNode i ("edge-" +:+ i) "10.0.0.1:8443" nodeStatus heartbeat ∅ []
    region "default" "v1.28.4" "containerd" 0 0.

Definition sampleRegistry : list EdgeNode :=
  [ sampleNode "n1" "eu" NodeStatusOnline 0;
    sampleNode "n2" "us" NodeStatusOnline 0;
    sampleNode "n3" "eu" NodeStatusOnline 0;
    sampleNode "n4" "us" NodeStatusOnline 0;
    sampleNode "n5" "eu" NodeStatusOnline 0 ].

Definition sampleWorkload (replicas : Z) (constraints : list PlacementConstraint)
    (workloadStatus : string) : Workload :=
  mkWorkload "w1" "web" "default" "deployment" "nginx:1.25" replicas
    (mkWorkloadResources "" "" "" "") (Some ∅) (Some ∅)
    (Some (<["workload-id" := "w1"]> (<["app" := "web"]> ∅)))
    (mkPolicy PlacementStrategyEdgeFirst constraints [])
    workloadStatus [] 0 0.

Definition regionEu : PlacementConstraint := mkConstraint "region" "In" ["eu"].
Definition regionMars : PlacementConstraint := mkConstraint "region" "In" ["mars"].

Definition degradedNode : EdgeNode := sampleNode "n7" "eu" NodeStatusDegraded 0.

Definition sampleJsNode (nodeStatus : string) (seen : Z) : Js.Node :=
  Js.mkNode "n7" "edge-n7" "10.0.0.7" nodeStatus ["docker"] seen [].

Definition sampleRequest (reqName : string) (replicas : Z) : WorkloadDeploymentRequest :=
  mkDeploymentRequest reqName "" "deployment" "nginx:1.25" replicas
    (mkWorkloadResources "" "" "" "") None None (mkPolicy "" [] []).

Definition sampleWorkloads : gmap string Workload :=
  {[ "w1" := sampleWorkload 2 [] WorkloadStatusRunning ]}.

Definition sampleKey : rsaPrivateKey := mkKey 3233 2753.

Definition sampleCertificate : Certificate + string :=
  (GenerateCertificate (inl sampleKey) None None "c1" 1500000000 1500000000
     "n1" "edge-n1" ∅).1.

(** A time zone on UTC, and one whose clocks go forward by an hour ten days
    after the epoch. *)
Definition utcZone (t : Z) (isUTC : bool) : Z := 0.

Definition springForward (t : Z) (isUTC : bool) : Z :=
  if isUTC
  then if (t <? 864000000)%Z then 0%Z else 3600000%Z
  else if (t <? 867600000)%Z then 0%Z else 3600000%Z.

(** Two online nodes, one heard of two minutes after the epoch and one not
    since the epoch, and the registry as the sweep three minutes after the
    epoch leaves it; a pending workload. *)
Definition twoNodes : gmap string EdgeNode :=
  {[ "n1" := sampleNode "n1" "eu" NodeStatusOnline (2 * Minute);
     "n2" := sampleNode "n2" "us" NodeStatusOnline 0 ]}.

Definition sweptRegistry : list EdgeNode :=
  (map_to_list (Go.checkNodeHealth (3 * Minute) twoNodes)).*2.

Definition pendingWorkloads : gmap string Workload :=
  {[ "w1" := sampleWorkload 2 [] WorkloadStatusPending ]}.

(** ** Further notions and sample data *)

(** How a scheduling tick may leave a workload: as it was, or, if it was
    pending, running with one record appended for each node of a non-empty
    selection. *)
Definition scheduledFrom (now : Z) (w w' : Workload) : Prop :=
  w' = w
  ∨ (wStatus w = WorkloadStatusPending
     ∧ ∃ nodes, nodes ≠ []
         ∧ w' = set_wUpdatedAt
                  (set_wStatus
                     (set_wDeployments w (wDeployments w ++ (recordFor now <$> nodes)))
                     WorkloadStatusRunning) now).

(** A node whose last heartbeat is within the staleness threshold at [now]. *)
Definition fresh (now : Z) (node : EdgeNode) : Prop :=
  (now - LastHeartbeat node ≤ 2 * Minute)%Z.

Definition sampleRegistration (regName regRegion : string) : NodeRegistrationRequest :=
  mkRegistrationRequest regName "10.0.0.9:8443" None ["compute"] regRegion ""
    "v1.28.4" "containerd".

Definition sampleRegistered : EdgeNode :=
  mkEdgeNode "n9" "edge-9" "10.0.0.9:8443" NodeStatusOnline 70 ∅ ["compute"]
    "default" "default" "v1.28.4" "containerd" 70 70.

Definition sampleNodes : gmap string EdgeNode :=
  {[ "n1" := sampleNode "n1" "eu" NodeStatusOnline 0 ]}.


Definition sampleOrchestrator : Js.Orchestrator :=
  Js.mkOrchestrator
    {[ "a" := Js.mkNode "a" "edge-a" "10.0.0.1" "ONLINE" [] 1000 [];
       "b" := Js.mkNode "b" "edge-b" "10.0.0.2" "ONLINE" [] 1000 [] ]}
    ∅
    {[ "a" := Js.mkTokenInfo "secret-a" 2592001000 1000 ]}
    ∅.


(** ** The scheduler *)

Lemma contains_elem_of slice item : contains slice item = true ↔ item ∈ slice.
Proof.
  induction slice as [|s rest IH]; simpl.
  - split; [discriminate | by intros ?%elem_of_nil].
  - destruct (String.eqb s item) eqn:E.
    + apply String.eqb_eq in E as ->. split; [intros _; left | done].
    + apply String.eqb_neq in E. rewrite IH, elem_of_cons. naive_solver.
Qed.

Lemma contains_false slice item : contains slice item = false ↔ item ∉ slice.
Proof.
  rewrite <- contains_elem_of. destruct (contains slice item); naive_solver.
Qed.

Lemma constraint_step node c rest :
  nodeMatchesConstraints node (c :: rest) = true
  ↔ constraintSatisfied node c ∧ nodeMatchesConstraints node rest = true.
Proof.
  unfold constraintSatisfied. simpl.
  destruct (String.eqb (Key c) "region") eqn:Er.
  { apply String.eqb_eq in Er.
    destruct (contains (Values c) (Region node)) eqn:Ec; simpl.
    - apply contains_elem_of in Ec. naive_solver.
    - apply contains_false in Ec. rewrite Er. naive_solver. }
  apply String.eqb_neq in Er.
  destruct (String.eqb (Key c) "zone") eqn:Ez.
  { apply String.eqb_eq in Ez.
    destruct (contains (Values c) (Zone node)) eqn:Ec; simpl.
    - apply contains_elem_of in Ec. naive_solver.
    - apply contains_false in Ec. rewrite Ez. naive_solver. }
  apply String.eqb_neq in Ez.
  destruct (Labels node !! Key c) as [v|] eqn:El.
  - destruct (contains (Values c) v) eqn:Ec; simpl.
    + apply contains_elem_of in Ec. naive_solver.
    + apply contains_false in Ec. naive_solver.
  - naive_solver.
Qed.

Lemma nodeMatchesConstraints_Forall node constraints :
  nodeMatchesConstraints node constraints = true
  ↔ Forall (constraintSatisfied node) constraints.
Proof.
  induction constraints as [|c rest IH].
  - split; [constructor | done].
  - rewrite constraint_step, Forall_cons, IH. done.
Qed.

Lemma collectCandidates_filter nodes constraints candidates :
  collectCandidates nodes constraints candidates
  = candidates ++ filter (eligible constraints) nodes.
Proof.
  revert candidates. induction nodes as [|node rest IH]; intros candidates; simpl.
  - by rewrite app_nil_r.
  - rewrite filter_cons. destruct (decide (eligible constraints node)) as [[Hs Hm]|Hn].
    + rewrite Hs, Hm. simpl. by rewrite IH, <- app_assoc.
    + destruct (String.eqb (Status node) NodeStatusOnline) eqn:Es; simpl; [|by rewrite IH].
      apply String.eqb_eq in Es.
      destruct (nodeMatchesConstraints node constraints) eqn:Em; [|by rewrite IH].
      by destruct Hn.
Qed.

Lemma selectNodesForWorkload_candidates registry workload :
  selectNodesForWorkload registry workload
  = selectEdgeFirstNodes (candidateSet registry workload) workload.
Proof.
  unfold selectNodesForWorkload, selectLoadBalancedNodes, selectResourceAwareNodes.
  rewrite collectCandidates_filter. simpl. fold (candidateSet registry workload).
  repeat destruct (String.eqb _ _); reflexivity.
Qed.

Lemma selectEdgeFirstNodes_positive candidates workload :
  (1 ≤ wReplicas workload)%Z →
  selectEdgeFirstNodes candidates workload
  = Ok (take (Z.to_nat (Z.min (wReplicas workload) (Z.of_nat (length candidates))))
          candidates).
Proof.
  intros Hr. unfold selectEdgeFirstNodes.
  destruct (Nat.eqb_spec (length candidates) 0) as [H0|H0].
  { apply length_zero_iff_nil in H0 as ->. by rewrite take_nil. }
  destruct (Z.eqb_spec (wReplicas workload) 0) as [?|_]; [lia|].
  destruct (Z.leb_spec (Z.of_nat (length candidates)) (wReplicas workload)) as [Hle|Hlt].
  - rewrite Z.min_r, Nat2Z.id, firstn_all by lia. done.
  - unfold slice_to.
    destruct (Z.ltb_spec (wReplicas workload) 0); [lia|].
    destruct (Z.ltb_spec (Z.of_nat (length candidates)) (wReplicas workload)); [lia|].
    simpl. by rewrite Z.min_l by lia.
Qed.

Lemma selectEdgeFirstNodes_nil workload : selectEdgeFirstNodes [] workload = Ok [].
Proof. reflexivity. Qed.

Lemma set_wDeployments_twice w ds ds' :
  set_wDeployments (set_wDeployments w ds) ds' = set_wDeployments w ds'.
Proof. reflexivity. Qed.

Lemma deployTo_records now nodes workload :
  deployTo now nodes workload
  = set_wDeployments workload (wDeployments workload ++ (recordFor now <$> nodes)).
Proof.
  revert workload. induction nodes as [|node rest IH]; intros workload; simpl.
  - rewrite app_nil_r. by destruct workload.
  - rewrite IH, set_wDeployments_twice. simpl. by rewrite <- app_assoc.
Qed.

Lemma chosen_distinct registry (P : EdgeNode → Prop) `{∀ x, Decision (P x)} k now :
  NoDup (ID <$> registry) →
  NoDup (dNodeID <$> (recordFor now <$> take k (filter P registry))).
Proof.
  intros Hnd. rewrite <- list_fmap_compose.
  eapply sublist_NoDup; [exact Hnd|].
  change (dNodeID ∘ recordFor now) with ID.
  apply fmap_sublist. etrans; [apply sublist_take | apply sublist_filter].
Qed.

Lemma selectEdgeFirstNodes_safe candidates workload :
  (0 ≤ wReplicas workload)%Z ∨ candidates = [] →
  ∃ nodes, selectEdgeFirstNodes candidates workload = Ok nodes.
Proof.
  intros [Hr| ->]; [|by eexists].
  unfold selectEdgeFirstNodes.
  destruct (length candidates =? 0)%nat; [by eexists|].
  destruct (Z.eqb_spec (wReplicas workload) 0) as [H0|H0].
  - destruct (Z.of_nat (length candidates) <=? 1)%Z eqn:E; [by eexists|].
    apply Z.leb_gt in E. unfold slice_to.
    destruct (Z.ltb_spec 1 0); [lia|].
    destruct (Z.ltb_spec (Z.of_nat (length candidates)) 1); [lia|]. by eexists.
  - destruct (Z.of_nat (length candidates) <=? wReplicas workload)%Z eqn:E; [by eexists|].
    apply Z.leb_gt in E. unfold slice_to.
    destruct (Z.ltb_spec (wReplicas workload) 0); [lia|].
    destruct (Z.ltb_spec (Z.of_nat (length candidates)) (wReplicas workload)); [lia|].
    by eexists.
Qed.

(** A scheduling attempt touches neither the replica count nor the placement
    policy of the workload. *)
Lemma scheduleWorkload_frame now registry workload workload' err :
  scheduleWorkload now registry workload = Ok (workload', err) →
  wReplicas workload' = wReplicas workload
  ∧ wPlacement workload' = wPlacement workload.
Proof.
  unfold scheduleWorkload.
  destruct (selectNodesForWorkload registry workload) as [nodes|msg]; simpl; [|done].
  destruct (length nodes =? 0)%nat; intros [= <- _]; [done|].
  rewrite deployTo_records. done.
Qed.

Lemma scheduleWorkload_safe now registry workload :
  (0 ≤ wReplicas workload)%Z ∨ candidateSet registry workload = [] →
  ∃ r, scheduleWorkload now registry workload = Ok r.
Proof.
  intros Hs. unfold scheduleWorkload. rewrite selectNodesForWorkload_candidates.
  destruct (selectEdgeFirstNodes_safe _ _ Hs) as [nodes ->]. simpl.
  destruct (length nodes =? 0)%nat; by eexists.
Qed.

Lemma scheduleWorkload_empty now registry workload :
  candidateSet registry workload = [] →
  scheduleWorkload now registry workload
  = Ok (workload, Some ("no suitable nodes found for workload " +:+ wName workload)).
Proof.
  intros HC. unfold scheduleWorkload.
  by rewrite selectNodesForWorkload_candidates, HC.
Qed.

(** Whatever the order of the visit, a tick that completes leaves a pending
    workload without candidates as it found it. *)
Lemma scheduleWorkloadsRange_keeps now registryAt keys :
  ∀ workloads k workload workloads',
    workloads !! k = Some workload →
    candidateSet (registryAt k) workload = [] →
    scheduleWorkloadsRange now registryAt keys workloads = Ok workloads' →
    workloads' !! k = Some workload.
Proof.
  induction keys as [|k0 rest IH]; intros ws k w ws' Hk HC; simpl.
  { by intros [= <-]. }
  destruct (ws !! k0) as [w0|] eqn:E0; [|by apply IH].
  destruct (String.eqb (wStatus w0) WorkloadStatusPending); [|by apply IH].
  destruct (decide (k0 = k)) as [->|Hne].
  - rewrite Hk in E0. injection E0 as <-.
    rewrite scheduleWorkload_empty by done. simpl.
    apply IH; [by rewrite lookup_insert_eq | done].
  - destruct (scheduleWorkload now (registryAt k0) w0) as [r|msg]; simpl; [|done].
    apply IH; [by rewrite lookup_insert_ne | done].
Qed.

(** A tick over harmless workloads completes. *)
Lemma scheduleWorkloadsRange_completes now registryAt keys :
  ∀ workloads,
    (∀ k w, workloads !! k = Some w → harmless registryAt k w) →
    ∃ workloads', scheduleWorkloadsRange now registryAt keys workloads = Ok workloads'.
Proof.
  induction keys as [|k0 rest IH]; intros ws Hall; simpl; [by eexists|].
  destruct (ws !! k0) as [w0|] eqn:E0; [|by apply IH].
  destruct (String.eqb (wStatus w0) WorkloadStatusPending); [|by apply IH].
  destruct (scheduleWorkload_safe now (registryAt k0) w0 (Hall _ _ E0)) as [[w1 e] Hr].
  rewrite Hr. simpl. apply IH. intros k w.
  destruct (decide (k0 = k)) as [->|Hne].
  - rewrite lookup_insert_eq. intros [= <-].
    destruct (scheduleWorkload_frame _ _ _ _ _ Hr) as [HR HP].
    unfold harmless, candidateSet. rewrite HR, HP. exact (Hall _ _ E0).
  - rewrite lookup_insert_ne by done. apply Hall.
Qed.

(** C1. A workload with strategy EDGE_FIRST and a desired replica count
    [r ≥ 1] whose candidate set [C] (the online nodes of the registry that
    match every constraint, in enumeration order) is not empty is scheduled
    without error: [scheduleWorkload] appends one deployment record for each of
    the first [min r |C|] candidates, and nothing else; every such record has
    status RUNNING and one replica; the records name the chosen nodes, which
    are pairwise distinct when the identifiers of the registry are; and the
    workload's status becomes RUNNING. *)
Theorem scheduleWorkload_edge_first now registry workload :
  Strategy (wPlacement workload) = PlacementStrategyEdgeFirst →
  (1 ≤ wReplicas workload)%Z →
  candidateSet registry workload ≠ [] →
  let C := candidateSet registry workload in
  let chosen := take (Z.to_nat (Z.min (wReplicas workload) (Z.of_nat (length C)))) C in
  let records := recordFor now <$> chosen in
  ∃ workload',
    scheduleWorkload now registry workload = Ok (workload', None)
    ∧ wDeployments workload' = wDeployments workload ++ records
    ∧ Z.of_nat (length records) = Z.min (wReplicas workload) (Z.of_nat (length C))
    ∧ Forall (λ d, dStatus d = WorkloadStatusRunning ∧ dReplicas d = 1%Z) records
    ∧ dNodeID <$> records = ID <$> chosen
    ∧ (NoDup (ID <$> registry) → NoDup (dNodeID <$> records))
    ∧ wStatus workload' = WorkloadStatusRunning
    ∧ workload'
      = set_wUpdatedAt
          (set_wStatus (set_wDeployments workload (wDeployments workload ++ records))
             WorkloadStatusRunning) now.
Proof.
  intros _ Hr HC C chosen records.
  assert (Hlen : Z.of_nat (length chosen)
                 = Z.min (wReplicas workload) (Z.of_nat (length C))).
  { unfold chosen. rewrite length_take. lia. }
  assert (Hne : chosen ≠ []).
  { intros Hnil. rewrite Hnil in Hlen. simpl in Hlen.
    assert (length C ≠ 0%nat) by (intros ?%length_zero_iff_nil; done). lia. }
  exists (set_wUpdatedAt
            (set_wStatus (set_wDeployments workload (wDeployments workload ++ records))
               WorkloadStatusRunning) now).
  split; [|split; [|split; [|split; [|split; [|split; [|split]]]]]];
    [| | | | | | | reflexivity].
  - unfold scheduleWorkload. rewrite selectNodesForWorkload_candidates.
    rewrite selectEdgeFirstNodes_positive by done. simpl.
    fold C. fold chosen.
    destruct (Nat.eqb_spec (length chosen) 0) as [H0|_].
    { by apply length_zero_iff_nil in H0. }
    rewrite deployTo_records. reflexivity.
  - reflexivity.
  - unfold records. by rewrite length_fmap.
  - unfold records. apply Forall_fmap, Forall_true. done.
  - unfold records. rewrite <- list_fmap_compose. done.
  - intros Hnd. unfold records, chosen, C, candidateSet. by apply chosen_distinct.
  - reflexivity.
Qed.

Lemma scheduleWorkload_edge_first_witness :
  ∃ workload',
    scheduleWorkload 1000 sampleRegistry (sampleWorkload 2 [] WorkloadStatusPending)
    = Ok (workload', None)
    ∧ dNodeID <$> wDeployments workload' = ["n1"; "n2"]
    ∧ wStatus workload' = WorkloadStatusRunning.
Proof.
  destruct (scheduleWorkload_edge_first 1000 sampleRegistry
              (sampleWorkload 2 [] WorkloadStatusPending))
    as (w' & Hrun & Hdep & _ & _ & _ & _ & Hst & _).
  - reflexivity.
  - simpl. lia.
  - vm_compute. discriminate.
  - exists w'. split; [exact Hrun|]. split; [|exact Hst].
    rewrite Hdep. vm_compute. reflexivity.
Defined.

(** C2. When the candidate set of a pending workload is empty, the scheduling
    attempt returns an error and leaves the workload exactly as it was, still
    PENDING and with the same deployment records; a scheduling tick over a map
    that holds it (the other workloads being harmless) completes and leaves
    its entry unchanged, so that the next tick selects it again. *)
Theorem scheduleWorkload_no_candidates now registry workload :
  wStatus workload = WorkloadStatusPending →
  candidateSet registry workload = [] →
  scheduleWorkload now registry workload
  = Ok (workload, Some ("no suitable nodes found for workload " +:+ wName workload))
  ∧ ∀ registryAt keys (workloads : gmap string Workload) k,
      registryAt k = registry →
      workloads !! k = Some workload →
      (∀ k' w', k' ≠ k → workloads !! k' = Some w' → harmless registryAt k' w') →
      ∃ workloads',
        scheduleWorkloadsRange now registryAt keys workloads = Ok workloads'
        ∧ workloads' !! k = Some workload
        ∧ String.eqb (wStatus workload) WorkloadStatusPending = true.
Proof.
  intros Hp HC. split; [by apply scheduleWorkload_empty|].
  intros registryAt keys workloads k Hreg Hk Hothers.
  destruct (scheduleWorkloadsRange_completes now registryAt keys workloads) as [ws' Hws'].
  { intros k' w' Hk'. destruct (decide (k' = k)) as [->|Hne]; [|by eapply Hothers].
    rewrite Hk in Hk'. injection Hk' as <-. right. by rewrite Hreg. }
  exists ws'. split; [done|]. split.
  - eapply scheduleWorkloadsRange_keeps; [exact Hk | by rewrite Hreg | exact Hws'].
  - by apply String.eqb_eq.
Qed.

Lemma scheduleWorkload_no_candidates_witness :
  scheduleWorkload 1000 sampleRegistry (sampleWorkload 2 [regionMars] WorkloadStatusPending)
  = Ok (sampleWorkload 2 [regionMars] WorkloadStatusPending,
        Some "no suitable nodes found for workload web").
Proof.
  refine (proj1 (scheduleWorkload_no_candidates 1000 sampleRegistry
                   (sampleWorkload 2 [regionMars] WorkloadStatusPending) _ _)).
  - reflexivity.
  - vm_compute. reflexivity.
Defined.

(** C3. A node matches a list of placement constraints exactly when it
    satisfies each of them: for the key "region" the node's region is in the
    value list, for the key "zone" its zone is, and for any other key the node
    carries that label with a value in the list (a node without the label
    fails).  A node of the registry is a candidate exactly when, in addition,
    it is online.  In particular a constraint on "region" with the single
    value "eu" rejects every node whose region is not "eu", whatever else
    holds of the node. *)
Theorem nodeMatchesConstraints_spec node constraints :
  (nodeMatchesConstraints node constraints = true
   ↔ Forall (constraintSatisfied node) constraints)
  ∧ (∀ registry,
       node ∈ collectCandidates registry constraints []
       ↔ node ∈ registry ∧ Status node = NodeStatusOnline
         ∧ Forall (constraintSatisfied node) constraints)
  ∧ (∀ operator,
       mkConstraint "region" operator ["eu"] ∈ constraints →
       Region node ≠ "eu" →
       nodeMatchesConstraints node constraints = false
       ∧ ∀ registry, node ∉ collectCandidates registry constraints []).
Proof.
  assert (Hcand : ∀ registry,
       node ∈ collectCandidates registry constraints []
       ↔ node ∈ registry ∧ Status node = NodeStatusOnline
         ∧ Forall (constraintSatisfied node) constraints).
  { intros registry. rewrite collectCandidates_filter. simpl.
    rewrite list_elem_of_filter. unfold eligible.
    rewrite nodeMatchesConstraints_Forall. tauto. }
  split; [apply nodeMatchesConstraints_Forall|]. split; [exact Hcand|].
  intros operator Hin Hregion.
  assert (Hno : ¬ Forall (constraintSatisfied node) constraints).
  { intros Hall. rewrite Forall_forall in Hall. specialize (Hall _ Hin).
    destruct Hall as [[_ He]|[[Hk _]|(Hk & _)]]; simpl in *; try done.
    apply list_elem_of_singleton in He. done. }
  split.
  - destruct (nodeMatchesConstraints node constraints) eqn:E; [|done].
    apply nodeMatchesConstraints_Forall in E. done.
  - intros registry Hc. apply Hcand in Hc. tauto.
Qed.

Lemma nodeMatchesConstraints_spec_witness :
  nodeMatchesConstraints (sampleNode "n2" "us" NodeStatusOnline 0) [regionEu] = false
  ∧ sampleNode "n2" "us" NodeStatusOnline 0 ∉ collectCandidates sampleRegistry [regionEu] [].
Proof.
  destruct (nodeMatchesConstraints_spec (sampleNode "n2" "us" NodeStatusOnline 0) [regionEu])
    as (_ & _ & H).
  destruct (H "In") as [H1 H2].
  - apply list_elem_of_singleton. reflexivity.
  - simpl. discriminate.
  - split; [exact H1 | exact (H2 sampleRegistry)].
Defined.

(** ** The health sweep *)

Lemma Go_checkOneNode_cases now node :
  Go.checkOneNode now node
  = if decide ((now - LastHeartbeat node > 2 * Minute)%Z
               ∧ Status node ≠ NodeStatusOffline)
    then set_UpdatedAt (set_Status node NodeStatusOffline) now
    else node.
Proof.
  unfold Go.checkOneNode.
  destruct (Z.gtb_spec (now - LastHeartbeat node) (2 * Minute)) as [Hs|Hs];
    destruct (String.eqb_spec (Status node) NodeStatusOffline) as [Ho|Ho]; simpl;
    destruct (decide _) as [[? ?]|Hn]; try done; try lia.
  destruct Hn. split; [lia | done].
Qed.

Lemma Go_checkOneNode_offline now node :
  Status node = NodeStatusOffline → Go.checkOneNode now node = node.
Proof.
  intros Ho. rewrite Go_checkOneNode_cases.
  destruct (decide _) as [[_ ?]|]; done.
Qed.

Lemma Go_checkOneNode_idem now node :
  Go.checkOneNode now (Go.checkOneNode now node) = Go.checkOneNode now node.
Proof.
  rewrite (Go_checkOneNode_cases now node).
  destruct (decide _) as [[Hs Ho]|Hn].
  - by apply Go_checkOneNode_offline.
  - rewrite Go_checkOneNode_cases. destruct (decide _); done.
Qed.

Lemma Js_checkOneNode_cases now node :
  Js.checkOneNode now node
  = if decide ((now - Js.lastSeen node > 300000)%Z ∧ Js.status node ≠ "OFFLINE")
    then Js.set_status node "OFFLINE"
    else node.
Proof.
  unfold Js.checkOneNode. change (5 * 60 * 1000)%Z with 300000%Z.
  destruct (Z.gtb_spec (now - Js.lastSeen node) 300000) as [Hs|Hs];
    destruct (String.eqb_spec (Js.status node) "OFFLINE") as [Ho|Ho]; simpl;
    destruct (decide _) as [[? ?]|Hn]; try done; try lia.
  destruct Hn. split; [lia | done].
Qed.

Lemma Js_checkOneNode_offline now node :
  Js.status node = "OFFLINE" → Js.checkOneNode now node = node.
Proof.
  intros Ho. rewrite Js_checkOneNode_cases.
  destruct (decide _) as [[_ ?]|]; done.
Qed.

Lemma Js_checkOneNode_idem now node :
  Js.checkOneNode now (Js.checkOneNode now node) = Js.checkOneNode now node.
Proof.
  rewrite (Js_checkOneNode_cases now node).
  destruct (decide _) as [[Hs Ho]|Hn].
  - by apply Js_checkOneNode_offline.
  - rewrite Js_checkOneNode_cases. destruct (decide _); done.
Qed.

(** C4. One health sweep at the instant [now] sets to OFFLINE, and stamps
    [UpdatedAt] with [now], exactly the nodes whose last heartbeat is more than
    the staleness threshold in the past (two minutes in the Go orchestrator)
    and whose status is not already OFFLINE; every other node, and the set of
    registered identifiers, is left as it was.  The sweep is idempotent: a
    second sweep at the same instant changes nothing, and a later sweep at any
    instant leaves every node that is OFFLINE after the first one untouched.
    The JavaScript node manager does the same with a threshold of five minutes
    on the status alone. *)
Theorem healthSweep_exact_and_idempotent :
  (∀ now (nodes : gmap string EdgeNode) k,
     Go.checkNodeHealth now nodes !! k
     = match nodes !! k with
       | None => None
       | Some node =>
           if decide ((now - LastHeartbeat node > 2 * Minute)%Z
                      ∧ Status node ≠ NodeStatusOffline)
           then Some (set_UpdatedAt (set_Status node NodeStatusOffline) now)
           else Some node
       end)
  ∧ (∀ now (nodes : gmap string EdgeNode),
       Go.checkNodeHealth now (Go.checkNodeHealth now nodes)
       = Go.checkNodeHealth now nodes)
  ∧ (∀ now later (nodes : gmap string EdgeNode) k node,
       Go.checkNodeHealth now nodes !! k = Some node →
       Status node = NodeStatusOffline →
       Go.checkNodeHealth later (Go.checkNodeHealth now nodes) !! k = Some node)
  ∧ (∀ now (nodes : gmap string Js.Node) k,
       Js.checkNodesHealth now nodes !! k
       = match nodes !! k with
         | None => None
         | Some node =>
             if decide ((now - Js.lastSeen node > 300000)%Z
                        ∧ Js.status node ≠ "OFFLINE")
             then Some (Js.set_status node "OFFLINE")
             else Some node
         end)
  ∧ (∀ now (nodes : gmap string Js.Node),
       Js.checkNodesHealth now (Js.checkNodesHealth now nodes)
       = Js.checkNodesHealth now nodes)
  ∧ (∀ now later (nodes : gmap string Js.Node) k node,
       Js.checkNodesHealth now nodes !! k = Some node →
       Js.status node = "OFFLINE" →
       Js.checkNodesHealth later (Js.checkNodesHealth now nodes) !! k = Some node).
Proof.
  repeat split.
  - intros now nodes k. unfold Go.checkNodeHealth. rewrite lookup_fmap.
    destruct (nodes !! k) as [node|]; simpl; [|done].
    rewrite Go_checkOneNode_cases. by destruct (decide _).
  - intros now nodes. unfold Go.checkNodeHealth. rewrite <- map_fmap_compose.
    apply map_fmap_ext. intros k node _. apply Go_checkOneNode_idem.
  - intros now later nodes k node Hk Ho. unfold Go.checkNodeHealth at 1.
    rewrite lookup_fmap, Hk. simpl. by rewrite Go_checkOneNode_offline.
  - intros now nodes k. unfold Js.checkNodesHealth. rewrite lookup_fmap.
    destruct (nodes !! k) as [node|]; simpl; [|done].
    rewrite Js_checkOneNode_cases. by destruct (decide _).
  - intros now nodes. unfold Js.checkNodesHealth. rewrite <- map_fmap_compose.
    apply map_fmap_ext. intros k node _. apply Js_checkOneNode_idem.
  - intros now later nodes k node Hk Ho. unfold Js.checkNodesHealth at 1.
    rewrite lookup_fmap, Hk. simpl. by rewrite Js_checkOneNode_offline.
Qed.

Lemma healthSweep_exact_and_idempotent_witness :
  Go.checkNodeHealth (9 * Minute)
    (Go.checkNodeHealth (3 * Minute) {[ "n7" := degradedNode ]}) !! "n7"
  = Some (set_UpdatedAt (set_Status degradedNode NodeStatusOffline) (3 * Minute))
  ∧ Js.checkNodesHealth 900000
      (Js.checkNodesHealth 400000 {[ "n7" := sampleJsNode "REGISTERED" 0 ]}) !! "n7"
    = Some (sampleJsNode "OFFLINE" 0).
Proof.
  destruct healthSweep_exact_and_idempotent as (_ & _ & Hgo & _ & _ & Hjs).
  split.
  - apply Hgo; [vm_compute; reflexivity | reflexivity].
  - apply Hjs; [vm_compute; reflexivity | reflexivity].
Defined.

Lemma sweep_degraded_counterexample :
  Status degradedNode = NodeStatusDegraded
  ∧ (3 * Minute - LastHeartbeat degradedNode > 2 * Minute)%Z
  ∧ Go.checkNodeHealth (3 * Minute) {[ "n7" := degradedNode ]} !! "n7"
    = Some (set_UpdatedAt (set_Status degradedNode NodeStatusOffline) (3 * Minute))
  ∧ Go.checkNodeHealth (3 * Minute) {[ "n7" := degradedNode ]} !! "n7"
    ≠ Some degradedNode.
Proof.
  split; [reflexivity|]. split; [vm_compute; reflexivity|].
  split; [vm_compute; reflexivity|].
  vm_compute. discriminate.
Qed.

(** C5, as amended.  The sweep leaves a DEGRADED or MAINTENANCE node untouched
    as long as its last heartbeat is not older than the staleness threshold;
    once it is older, the sweep sets the node to OFFLINE as it does for every
    node that is not already OFFLINE.  The same holds in the JavaScript node
    manager for any status other than OFFLINE. *)
Theorem sweep_degraded_maintenance :
  (∀ now (nodes : gmap string EdgeNode) k node,
     nodes !! k = Some node →
     Status node = NodeStatusDegraded ∨ Status node = NodeStatusMaintenance →
     ((now - LastHeartbeat node ≤ 2 * Minute)%Z →
      Go.checkNodeHealth now nodes !! k = Some node)
     ∧ ((now - LastHeartbeat node > 2 * Minute)%Z →
        Go.checkNodeHealth now nodes !! k
        = Some (set_UpdatedAt (set_Status node NodeStatusOffline) now)))
  ∧ (∀ now (nodes : gmap string Js.Node) k node,
       nodes !! k = Some node →
       Js.status node = "DEGRADED" ∨ Js.status node = "MAINTENANCE" →
       ((now - Js.lastSeen node ≤ 300000)%Z →
        Js.checkNodesHealth now nodes !! k = Some node)
       ∧ ((now - Js.lastSeen node > 300000)%Z →
          Js.checkNodesHealth now nodes !! k = Some (Js.set_status node "OFFLINE"))).
Proof.
  split.
  - intros now nodes k node Hk Hst. unfold Go.checkNodeHealth.
    rewrite lookup_fmap, Hk. simpl. rewrite Go_checkOneNode_cases.
    split; intros Hage; destruct (decide _) as [[? ?]|Hn]; try done; try lia.
    destruct Hn. split; [done|]. by destruct Hst as [-> | ->].
  - intros now nodes k node Hk Hst. unfold Js.checkNodesHealth.
    rewrite lookup_fmap, Hk. simpl. rewrite Js_checkOneNode_cases.
    split; intros Hage; destruct (decide _) as [[? ?]|Hn]; try done; try lia.
    destruct Hn. split; [done|]. by destruct Hst as [-> | ->].
Qed.

Lemma sweep_degraded_maintenance_witness :
  Go.checkNodeHealth Minute {[ "n7" := degradedNode ]} !! "n7" = Some degradedNode
  ∧ Js.checkNodesHealth 400000 {[ "n7" := sampleJsNode "DEGRADED" 0 ]} !! "n7"
    = Some (sampleJsNode "OFFLINE" 0).
Proof.
  destruct sweep_degraded_maintenance as [Hgo Hjs]. split.
  - refine (proj1 (Hgo Minute {[ "n7" := degradedNode ]} "n7" degradedNode _ _) _).
    + vm_compute. reflexivity.
    + left. reflexivity.
    + vm_compute. discriminate.
  - refine (proj2 (Hjs 400000%Z {[ "n7" := sampleJsNode "DEGRADED" 0 ]} "n7"
                     (sampleJsNode "DEGRADED" 0) _ _) _).
    + vm_compute. reflexivity.
    + left. reflexivity.
    + vm_compute. reflexivity.
Defined.

(** ** The workload handlers *)

Lemma requiredString_nil field value : requiredString field value = [] ↔ value ≠ "".
Proof.
  unfold requiredString. destruct (String.eqb_spec value ""); naive_solver.
Qed.

Lemma bindWorkloadDeploymentRequest_nil req :
  bindWorkloadDeploymentRequest req = []
  ↔ rName req ≠ "" ∧ rType req ≠ "" ∧ rImage req ≠ "".
Proof.
  unfold bindWorkloadDeploymentRequest.
  rewrite !app_nil, !requiredString_nil. tauto.
Qed.

Lemma applyDefaults_fields w :
  let w' := applyDefaults w in
  wID w' = wID w ∧ wName w' = wName w ∧ wType w' = wType w ∧ wImage w' = wImage w
  ∧ wResources w' = wResources w ∧ wSelector w' = wSelector w
  ∧ wStatus w' = wStatus w ∧ wDeployments w' = wDeployments w
  ∧ wCreatedAt w' = wCreatedAt w ∧ wUpdatedAt w' = wUpdatedAt w
  ∧ Constraints (wPlacement w') = Constraints (wPlacement w)
  ∧ Preferences (wPlacement w') = Preferences (wPlacement w)
  ∧ wNamespace w' = (if decide (wNamespace w = "") then "default" else wNamespace w)
  ∧ wReplicas w' = (if decide (wReplicas w = 0%Z) then 1%Z else wReplicas w)
  ∧ wLabels w' = Some (default ∅ (wLabels w))
  ∧ wEnvironment w' = Some (default ∅ (wEnvironment w))
  ∧ Strategy (wPlacement w')
    = (if decide (Strategy (wPlacement w) = "") then PlacementStrategyEdgeFirst
       else Strategy (wPlacement w)).
Proof.
  destruct w as [i n ns ty im r res env lab sel [st cs ps] s ds ca ua].
  unfold applyDefaults. simpl.
  destruct (String.eqb_spec ns ""); simpl;
    destruct (Z.eqb_spec r 0); simpl;
    destruct lab; simpl; destruct env; simpl;
    destruct (String.eqb_spec st ""); simpl;
    repeat case_decide; done.
Qed.

(** C6. [DeployWorkload] rejects a request whose name, type or image is
    missing with a validation error and leaves the workload map as it was.
    Otherwise it stores, under the freshly generated identifier, a workload
    that carries the request's name, type and image, the namespace "default"
    when none was given, one replica when the count was unset, empty label and
    environment maps when they were absent, the strategy EDGE_FIRST when none
    was given, the status PENDING, no deployment record, and the selector
    made of "app" (the name) and "workload-id" (the identifier). *)
Theorem DeployWorkload_spec workloadID now req (workloads : gmap string Workload) :
  (rName req = "" ∨ rType req = "" ∨ rImage req = "" →
   ∃ failed,
     failed ≠ []
     ∧ DeployWorkload workloadID now req workloads = (StatusBadRequest failed, workloads))
  ∧ (rName req ≠ "" → rType req ≠ "" → rImage req ≠ "" →
     ∃ workload,
       DeployWorkload workloadID now req workloads
       = (StatusCreated workloadID workload, <[workloadID := workload]> workloads)
       ∧ wID workload = workloadID
       ∧ wName workload = rName req
       ∧ wType workload = rType req
       ∧ wImage workload = rImage req
       ∧ wNamespace workload
         = (if decide (rNamespace req = "") then "default" else rNamespace req)
       ∧ wReplicas workload
         = (if decide (rReplicas req = 0%Z) then 1%Z else rReplicas req)
       ∧ wLabels workload = Some (default ∅ (rLabels req))
       ∧ wEnvironment workload = Some (default ∅ (rEnvironment req))
       ∧ Strategy (wPlacement workload)
         = (if decide (Strategy (rPlacement req) = "") then PlacementStrategyEdgeFirst
            else Strategy (rPlacement req))
       ∧ Constraints (wPlacement workload) = Constraints (rPlacement req)
       ∧ wStatus workload = WorkloadStatusPending
       ∧ wDeployments workload = []
       ∧ ∃ selector,
           wSelector workload = Some selector
           ∧ ∀ key, selector !! key
                    = if decide (key = "app") then Some (rName req)
                      else if decide (key = "workload-id") then Some workloadID
                      else None).
Proof.
  split.
  - intros Hmiss. unfold DeployWorkload.
    destruct (bindWorkloadDeploymentRequest req) as [|f fs] eqn:E.
    + apply bindWorkloadDeploymentRequest_nil in E. tauto.
    + eexists. split; [|reflexivity]. done.
  - intros Hn Ht Hi. unfold DeployWorkload.
    rewrite (proj2 (bindWorkloadDeploymentRequest_nil req)) by done.
    set (w0 := mkWorkload workloadID (rName req) (rNamespace req) (rType req)
                 (rImage req) (rReplicas req) (rResources req) (rEnvironment req)
                 (rLabels req) None (rPlacement req) WorkloadStatusPending [] now now).
    destruct (applyDefaults_fields w0)
      as (Hid & Hname & Hty & Him & _ & _ & Hst & Hds & _ & _ & Hcs & _
          & Hns & Hr & Hl & He & Hstr).
    eexists. split; [reflexivity|]. simpl.
    repeat (split; [assumption|]).
    eexists. split; [reflexivity|]. intros key. rewrite Hname. simpl.
    repeat case_decide; subst; simplify_map_eq; done.
Qed.

Lemma DeployWorkload_spec_witness :
  (∃ failed,
     failed ≠ []
     ∧ DeployWorkload "w9" 7 (sampleRequest "" 3) ∅ = (StatusBadRequest failed, ∅))
  ∧ ∃ workload,
      DeployWorkload "w9" 7 (sampleRequest "web" 0) ∅
      = (StatusCreated "w9" workload, {[ "w9" := workload ]})
      ∧ wReplicas workload = 1%Z
      ∧ wStatus workload = WorkloadStatusPending.
Proof.
  split.
  - apply (proj1 (DeployWorkload_spec "w9" 7 (sampleRequest "" 3) ∅)).
    left. reflexivity.
  - destruct (proj2 (DeployWorkload_spec "w9" 7 (sampleRequest "web" 0) ∅))
      as (w & Hrun & _ & _ & _ & _ & _ & Hr & _ & _ & _ & _ & Hst & _);
      [simpl; discriminate | simpl; discriminate | simpl; discriminate |].
    exists w. split; [exact Hrun|]. split; [exact Hr | exact Hst].
Defined.

Lemma ScaleWorkload_zero_counterexample :
  sampleWorkloads !! "w1" = Some (sampleWorkload 2 [] WorkloadStatusRunning)
  ∧ ScaleWorkload 50 "w1" (mkScaleRequest 0) sampleWorkloads
    = (StatusBadRequest ["Replicas"], sampleWorkloads)
  ∧ wReplicas <$> (ScaleWorkload 50 "w1" (mkScaleRequest 0) sampleWorkloads).2 !! "w1"
    = Some 2%Z
  ∧ wStatus <$> (ScaleWorkload 50 "w1" (mkScaleRequest 0) sampleWorkloads).2 !! "w1"
    = Some WorkloadStatusRunning.
Proof.
  repeat split; vm_compute; reflexivity.
Qed.

(** C7, as amended.  For an existing workload and a requested replica count
    [n] other than zero, [ScaleWorkload] sets the desired replica count to [n]
    and the status to PENDING whatever the status was, stamps [UpdatedAt], and
    touches nothing else; for an unknown identifier it answers NotFound and
    changes nothing.  A request whose replica count is zero (or absent) is
    rejected with a validation error, before the identifier is looked up, and
    changes nothing. *)
Theorem ScaleWorkload_spec now workloadID req (workloads : gmap string Workload) :
  (sReplicas req ≠ 0%Z →
   ∀ workload, workloads !! workloadID = Some workload →
     let scaled :=
       set_wUpdatedAt
         (set_wStatus (set_wReplicas workload (sReplicas req)) WorkloadStatusPending)
         now in
     ScaleWorkload now workloadID req workloads
     = (StatusOK "Workload scaled successfully" scaled,
        <[workloadID := scaled]> workloads)
     ∧ wReplicas scaled = sReplicas req
     ∧ wStatus scaled = WorkloadStatusPending
     ∧ wUpdatedAt scaled = now)
  ∧ (sReplicas req ≠ 0%Z →
     workloads !! workloadID = None →
     ScaleWorkload now workloadID req workloads
     = (StatusNotFound "Workload not found", workloads))
  ∧ (sReplicas req = 0%Z →
     ScaleWorkload now workloadID req workloads
     = (StatusBadRequest ["Replicas"], workloads)).
Proof.
  unfold ScaleWorkload, bindScaleWorkloadRequest, requiredInt.
  destruct (Z.eqb_spec (sReplicas req) 0) as [H0|H0]; simpl.
  - repeat split; done.
  - split; [|split; [|done]].
    + intros _ workload ->. done.
    + intros _ ->. done.
Qed.

Lemma ScaleWorkload_spec_witness :
  (∃ scaled,
     ScaleWorkload 50 "w1" (mkScaleRequest 3) sampleWorkloads
     = (StatusOK "Workload scaled successfully" scaled, <["w1" := scaled]> sampleWorkloads)
     ∧ wReplicas scaled = 3%Z
     ∧ wStatus scaled = WorkloadStatusPending)
  ∧ ScaleWorkload 50 "w404" (mkScaleRequest 3) sampleWorkloads
    = (StatusNotFound "Workload not found", sampleWorkloads)
  ∧ ScaleWorkload 50 "w1" (mkScaleRequest 0) sampleWorkloads
    = (StatusBadRequest ["Replicas"], sampleWorkloads).
Proof.
  split; [|split].
  - destruct (proj1 (ScaleWorkload_spec 50 "w1" (mkScaleRequest 3) sampleWorkloads)
                ltac:(simpl; discriminate)
                (sampleWorkload 2 [] WorkloadStatusRunning)
                ltac:(vm_compute; reflexivity))
      as (Hrun & Hr & Hs & _).
    eexists. split; [exact Hrun|]. split; [exact Hr | exact Hs].
  - apply (proj1 (proj2 (ScaleWorkload_spec 50 "w404" (mkScaleRequest 3) sampleWorkloads))).
    + simpl. discriminate.
    + vm_compute. reflexivity.
  - apply (proj2 (proj2 (ScaleWorkload_spec 50 "w1" (mkScaleRequest 0) sampleWorkloads))).
    reflexivity.
Defined.

(** ** Negative replica counts *)

(** With a negative replica count and at least one candidate, edge-first
    selection evaluates a slice expression with a negative bound. *)
Lemma selectEdgeFirstNodes_negative candidates workload :
  (wReplicas workload < 0)%Z → candidates ≠ [] →
  selectEdgeFirstNodes candidates workload = Panic "slice bounds out of range".
Proof.
  intros Hr Hc. unfold selectEdgeFirstNodes.
  destruct (Nat.eqb_spec (length candidates) 0) as [H0|H0].
  { by apply length_zero_iff_nil in H0. }
  destruct (Z.eqb_spec (wReplicas workload) 0); [lia|].
  destruct (Z.leb_spec (Z.of_nat (length candidates)) (wReplicas workload)); [lia|].
  unfold slice_to. destruct (Z.ltb_spec (wReplicas workload) 0); [done | lia].
Qed.

(** C10, at the failing input.  A scale request for -1 replicas, an [int32]
    value, is accepted and stored; with one online node in the registry the
    next scheduling tick does not complete: it ends in a run-time panic raised
    by the slice expression of [selectEdgeFirstNodes]. *)
Theorem negative_replicas_panic :
  int32_range (-1)
  ∧ (ScaleWorkload 50 "w1" (mkScaleRequest (-1)) sampleWorkloads).1
    = StatusOK "Workload scaled successfully"
        (set_wUpdatedAt
           (set_wStatus
              (set_wReplicas (sampleWorkload 2 [] WorkloadStatusRunning) (-1))
              WorkloadStatusPending) 50)
  ∧ selectEdgeFirstNodes sampleRegistry
      (sampleWorkload (-1) [] WorkloadStatusPending)
    = Panic "slice bounds out of range"
  ∧ scheduleWorkloads 60 (λ _, sampleRegistry)
      (ScaleWorkload 50 "w1" (mkScaleRequest (-1)) sampleWorkloads).2
    = Panic "slice bounds out of range".
Proof.
  split; [unfold int32_range; lia|].
  repeat split; vm_compute; reflexivity.
Qed.

(** ** Tokens *)

Lemma validateToken_true now nodeId tok (tokens : gmap string Js.TokenInfo) :
  Js.validateToken now nodeId tok tokens = true
  ↔ ∃ info, tokens !! nodeId = Some info ∧ Js.token info = tok
            ∧ (now ≤ Js.expiresAt info)%Z.
Proof.
  unfold Js.validateToken. destruct (tokens !! nodeId) as [info|]; [|naive_solver].
  destruct (String.eqb_spec (Js.token info) tok) as [He|He]; simpl.
  - destruct (Z.gtb_spec now (Js.expiresAt info)) as [Hx|Hx].
    + split; [done|]. intros (i & [= <-] & _ & ?). lia.
    + split; [|done]. intros _. exists info. split; [done|]. split; [done | lia].
  - split; [done|]. intros (i & [= <-] & ? & _). done.
Qed.

Lemma validateToken_false_iff now nodeId tok (tokens : gmap string Js.TokenInfo) :
  Js.validateToken now nodeId tok tokens = false
  ↔ ¬ ∃ info, tokens !! nodeId = Some info ∧ Js.token info = tok
              ∧ (now ≤ Js.expiresAt info)%Z.
Proof.
  rewrite <- validateToken_true. destruct (Js.validateToken _ _ _ _); naive_solver.
Qed.

(** C8, the claim as stated fails: in a time zone whose clocks go forward
    within the thirty days, a token issued at the epoch expires an hour short
    of thirty days of twenty-four hours after its creation, and is refused
    within them; and [createdAt] is a reading of the clock of its own, so
    that the expiry is not thirty days after it even where the offset is
    constant. *)
Lemma token_expiry_counterexample :
  (∃ info,
     (Js.generateToken "aa" springForward 0 0 "n1" ∅).2 !! "n1" = Some info
     ∧ Js.createdAt info = 0%Z
     ∧ Js.expiresAt info = 2588400000%Z
     ∧ Js.expiresAt info ≠ (Js.createdAt info + 30 * 86400000)%Z)
  ∧ Js.validateToken 2590000000 "n1" "aa"
      (Js.generateToken "aa" springForward 0 0 "n1" ∅).2 = false
  ∧ (∃ info,
       (Js.generateToken "aa" utcZone 1000 1001 "n1" ∅).2 !! "n1" = Some info
       ∧ Js.expiresAt info ≠ (Js.createdAt info + 30 * 86400000)%Z).
Proof.
  split; [|split].
  - eexists. split; [vm_compute; reflexivity|]. vm_compute. repeat split; discriminate.
  - vm_compute. reflexivity.
  - eexists. split; [vm_compute; reflexivity|]. vm_compute. discriminate.
Qed.

(** C8, amended. [validateToken] answers [true] exactly when an entry is
    stored for the node, its secret is the presented one, and the current time
    is not past its expiry.  [generateToken] stores, in place of any earlier
    entry of the node, an entry whose expiry is the instant thirty local
    calendar days after the reading of the clock taken at issuance: thirty
    days of twenty-four hours later, corrected by the change of the offset of
    the local time zone between the two ends, and exactly thirty days of
    twenty-four hours later when the offset is the same at both; [createdAt]
    is a later reading of its own.  Hence at most one secret validates for a
    node at any time, a secret issued earlier no longer validates once a new
    one is issued, no secret validates after revocation, and none validates
    after expiry; the secret just issued validates exactly until its
    expiry. *)
Theorem token_lifecycle :
  (∀ now nodeId tok (tokens : gmap string Js.TokenInfo),
     Js.validateToken now nodeId tok tokens = true
     ↔ ∃ info, tokens !! nodeId = Some info ∧ Js.token info = tok
               ∧ (now ≤ Js.expiresAt info)%Z)
  ∧ (∀ secret tza now created nodeId (tokens : gmap string Js.TokenInfo),
       (Js.generateToken secret tza now created nodeId tokens).1 = secret
       ∧ (∃ info,
            (Js.generateToken secret tza now created nodeId tokens).2 !! nodeId
            = Some info
            ∧ Js.token info = secret
            ∧ Js.createdAt info = created
            ∧ Js.expiresAt info = Js.setDatePlus30 tza now
            ∧ Js.expiresAt info
              = (now + 30 * 86400000
                 + (tza now true - tza (now + tza now true + 30 * 86400000)%Z false))%Z
            ∧ (tza (now + tza now true + 30 * 86400000)%Z false = tza now true →
               Js.expiresAt info = (now + 30 * 86400000)%Z))
       ∧ ∀ other, other ≠ nodeId →
           (Js.generateToken secret tza now created nodeId tokens).2 !! other
           = tokens !! other)
  ∧ (∀ now nodeId t1 t2 (tokens : gmap string Js.TokenInfo),
       Js.validateToken now nodeId t1 tokens = true →
       Js.validateToken now nodeId t2 tokens = true →
       t1 = t2)
  ∧ (∀ old new tzaOld tzaNew issuedOld createdOld issuedNew createdNew now nodeId
       (tokens : gmap string Js.TokenInfo),
       old ≠ new →
       Js.validateToken now nodeId old
         (Js.generateToken new tzaNew issuedNew createdNew nodeId
            (Js.generateToken old tzaOld issuedOld createdOld nodeId tokens).2).2
       = false)
  ∧ (∀ now nodeId tok (tokens : gmap string Js.TokenInfo),
       Js.validateToken now nodeId tok (Js.revokeToken nodeId tokens).2 = false)
  ∧ (∀ now nodeId tok (tokens : gmap string Js.TokenInfo) info,
       tokens !! nodeId = Some info →
       (now > Js.expiresAt info)%Z →
       Js.validateToken now nodeId tok tokens = false)
  ∧ (∀ secret tza issued created now nodeId (tokens : gmap string Js.TokenInfo),
       Js.validateToken now nodeId secret
         (Js.generateToken secret tza issued created nodeId tokens).2 = true
       ↔ (now ≤ Js.setDatePlus30 tza issued)%Z).
Proof.
  split; [exact validateToken_true|].
  split; [|split; [|split; [|split; [|split]]]].
  - intros secret tza now created nodeId tokens. unfold Js.generateToken. simpl.
    split; [done|]. split.
    + eexists. rewrite lookup_insert_eq. split; [done|]. simpl.
      unfold Js.setDatePlus30, Js.UTC, Js.LocalTime.
      change Js.msPerDay with 86400000%Z. repeat split; lia.
    + intros other Hne. by rewrite lookup_insert_ne.
  - intros now nodeId t1 t2 tokens H1 H2.
    apply validateToken_true in H1 as (i1 & Hl1 & <- & _).
    apply validateToken_true in H2 as (i2 & Hl2 & <- & _).
    congruence.
  - intros old new tzaOld tzaNew issuedOld createdOld issuedNew createdNew
      now nodeId tokens Hne.
    apply validateToken_false_iff. intros (info & Hl & Ht & _).
    unfold Js.generateToken in Hl. simpl in Hl.
    rewrite lookup_insert_eq in Hl. injection Hl as <-. simpl in Ht. done.
  - intros now nodeId tok tokens.
    apply validateToken_false_iff. intros (info & Hl & _).
    unfold Js.revokeToken in Hl. destruct (tokens !! nodeId) eqn:E; simpl in Hl.
    + by rewrite lookup_delete_eq in Hl.
    + congruence.
  - intros now nodeId tok tokens info Hl Hx.
    apply validateToken_false_iff. intros (i & Hl' & _ & Hle).
    rewrite Hl in Hl'. injection Hl' as <-. lia.
  - intros secret tza issued created now nodeId tokens.
    rewrite validateToken_true. unfold Js.generateToken. simpl.
    rewrite lookup_insert_eq. split.
    + intros (info & [= <-] & _ & Hle). exact Hle.
    + intros Hle. eexists. split; [done|]. split; [done|]. exact Hle.
Qed.

Lemma token_lifecycle_witness :
  Js.validateToken 5000 "n1" "aa"
    (Js.generateToken "bb" utcZone 2000 2001 "n1"
       (Js.generateToken "aa" utcZone 1000 1001 "n1" ∅).2).2 = false
  ∧ Js.validateToken 2592002001 "n1" "bb"
      (Js.generateToken "bb" utcZone 2000 2001 "n1" ∅).2 = false
  ∧ (∃ info,
       (Js.generateToken "bb" utcZone 2000 2001 "n1" ∅).2 !! "n1" = Some info
       ∧ Js.expiresAt info = (2000 + 30 * 86400000)%Z).
Proof.
  destruct token_lifecycle as (_ & Hgen & _ & Hold & _ & Hexp & _).
  split; [|split].
  - apply Hold. discriminate.
  - eapply Hexp; [vm_compute; reflexivity | simpl; lia].
  - destruct (Hgen "bb" utcZone 2000%Z 2001%Z "n1" ∅)
      as (_ & (info & Hl & _ & _ & _ & _ & Hconst) & _).
    exists info. split; [exact Hl|]. apply Hconst. reflexivity.
Defined.

(** ** Certificates *)

Lemma truncateToSecond_bounds t :
  (truncateToSecond t ≤ t < truncateToSecond t + 1000000000)%Z.
Proof.
  unfold truncateToSecond, Second.
  pose proof (Z.div_mod t 1000000000 ltac:(lia)).
  pose proof (Z.mod_pos_bound t 1000000000 ltac:(lia)). lia.
Qed.

Lemma truncateToSecond_add_period t :
  truncateToSecond (t + CertValidityPeriod) = (truncateToSecond t + CertValidityPeriod)%Z.
Proof.
  unfold truncateToSecond.
  change CertValidityPeriod with (31536000 * Second)%Z.
  rewrite Z.div_add by (unfold Second; lia). lia.
Qed.

Lemma GenerateCertificate_inl keygen createFailure marshalFailure certID
    nowNotBefore nowNotAfter nodeID commonName
    (certificates : gmap string Certificate) cert :
  (GenerateCertificate keygen createFailure marshalFailure certID
     nowNotBefore nowNotAfter nodeID commonName certificates).1 = inl cert →
  ∃ key,
    keygen = inl key ∧ createFailure = None ∧ marshalFailure = None
    ∧ cert = mkCertificate certID nodeID
               [mkBlock "CERTIFICATE"
                  (DerCertificate
                     (mkX509 1 commonName (truncateToSecond nowNotBefore)
                        (truncateToSecond (nowNotAfter + CertValidityPeriod)))
                     (PublicKey key) key)]
               [mkBlock "PRIVATE KEY" (DerPrivateKey key)]
               nowNotBefore (nowNotAfter + CertValidityPeriod)
    ∧ (GenerateCertificate keygen createFailure marshalFailure certID
         nowNotBefore nowNotAfter nodeID commonName certificates).2
      = <[certID := cert]> certificates.
Proof.
  unfold GenerateCertificate.
  destruct keygen as [key|e]; [|discriminate].
  destruct createFailure as [e|]; [discriminate|].
  destruct marshalFailure as [e|]; [discriminate|].
  simpl. intros [= <-]. exists key. done.
Qed.

Lemma ValidateClientCertificate_window t blockName tbs pub key :
  ValidateClientCertificate t [mkBlock blockName (DerCertificate tbs pub key)] = None
  ↔ (NotBefore tbs ≤ t ≤ NotAfter tbs)%Z.
Proof.
  unfold ValidateClientCertificate. simpl.
  destruct (Z.ltb_spec t (NotBefore tbs)); simpl.
  - split; [done | lia].
  - destruct (Z.ltb_spec (NotAfter tbs) t); split; try done; lia.
Qed.

(** C9, the claim as stated fails: a certificate issued half a second past a
    whole second carries an encoded window that opens at the whole second,
    before the instant of issue, and closes at the whole second before the
    recorded expiry; validation succeeds at an instant before the issue, and
    fails at the recorded expiry, 365 days after the issue. *)
Lemma certificate_window_counterexample :
  ∃ cert,
    sampleCertificate = inl cert
    ∧ cIssuedAt cert = 1500000000%Z
    ∧ cExpiresAt cert = (cIssuedAt cert + 365 * (24 * 3600 * 1000000000))%Z
    ∧ (∃ block encoded,
         pemDecode (cCertificate cert) = Some block
         ∧ x509ParseCertificate (blockBytes block) = inl encoded
         ∧ NotBefore encoded = 1000000000%Z
         ∧ NotBefore encoded ≠ cIssuedAt cert
         ∧ NotAfter encoded ≠ (cIssuedAt cert + 365 * (24 * 3600 * 1000000000))%Z)
    ∧ ValidateClientCertificate 1200000000 (cCertificate cert) = None
    ∧ ValidateClientCertificate (cExpiresAt cert) (cCertificate cert)
      = Some "certificate is not valid at current time".
Proof.
  eexists. split; [reflexivity|]. split; [reflexivity|]. split; [reflexivity|].
  split; [|split; vm_compute; reflexivity].
  eexists _, _. split; [reflexivity|]. split; [reflexivity|].
  vm_compute. repeat split; discriminate.
Qed.

(** C9, amended. A certificate returned by [GenerateCertificate] records as
    its issue instant the first reading of the clock and as its expiry the
    second reading plus 365 days.  The certificate encoded in its PEM carries
    the window from the whole second of the issue instant to the whole second
    of the expiry, each less than a second before the recorded instant, and
    [ValidateClientCertificate] on that PEM succeeds exactly when the current
    time lies inside the encoded window, both ends included.  When the second
    reading is not before the first, validation succeeds from the issue
    instant until a second short of 365 days after it, and it fails from a
    second before the issue instant backwards and after the recorded expiry.
    When the two readings are one whole second, the window is exactly the
    365 days from the issue instant.  The certificate is stored under its
    identifier. *)
Theorem certificate_window keygen createFailure marshalFailure certID
    nowNotBefore nowNotAfter nodeID commonName
    (certificates : gmap string Certificate) cert :
  (GenerateCertificate keygen createFailure marshalFailure certID
     nowNotBefore nowNotAfter nodeID commonName certificates).1 = inl cert →
  cIssuedAt cert = nowNotBefore
  ∧ cExpiresAt cert = (nowNotAfter + 365 * (24 * 3600 * 1000000000))%Z
  ∧ (∃ block encoded,
       pemDecode (cCertificate cert) = Some block
       ∧ x509ParseCertificate (blockBytes block) = inl encoded
       ∧ NotBefore encoded = truncateToSecond (cIssuedAt cert)
       ∧ NotAfter encoded = truncateToSecond (cExpiresAt cert))
  ∧ (cIssuedAt cert - 1000000000 < truncateToSecond (cIssuedAt cert) ≤ cIssuedAt cert)%Z
  ∧ (cExpiresAt cert - 1000000000 < truncateToSecond (cExpiresAt cert)
     ≤ cExpiresAt cert)%Z
  ∧ (∀ t, ValidateClientCertificate t (cCertificate cert) = None
          ↔ (truncateToSecond (cIssuedAt cert) ≤ t
             ≤ truncateToSecond (cExpiresAt cert))%Z)
  ∧ ((nowNotBefore ≤ nowNotAfter)%Z →
     (∀ t, (cIssuedAt cert ≤ t
            ≤ cIssuedAt cert + 365 * (24 * 3600 * 1000000000) - 1000000000)%Z →
           ValidateClientCertificate t (cCertificate cert) = None)
     ∧ (∀ t, (t ≤ cIssuedAt cert - 1000000000 ∨ cExpiresAt cert < t)%Z →
             ValidateClientCertificate t (cCertificate cert)
             = Some "certificate is not valid at current time"))
  ∧ (nowNotAfter = nowNotBefore → truncateToSecond nowNotBefore = nowNotBefore →
     ∀ t, ValidateClientCertificate t (cCertificate cert) = None
          ↔ (cIssuedAt cert ≤ t
             ≤ cIssuedAt cert + 365 * (24 * 3600 * 1000000000))%Z)
  ∧ (GenerateCertificate keygen createFailure marshalFailure certID
       nowNotBefore nowNotAfter nodeID commonName certificates).2 !! certID
    = Some cert.
Proof.
  intros Hgen.
  destruct (GenerateCertificate_inl _ _ _ _ _ _ _ _ _ _ Hgen)
    as (key & -> & -> & -> & Hc & Hs).
  rewrite Hs, lookup_insert_eq. subst cert. cbn [cIssuedAt cExpiresAt cCertificate].
  assert (Hp : CertValidityPeriod = (365 * (24 * 3600 * 1000000000))%Z) by reflexivity.
  rewrite <- Hp.
  pose proof (truncateToSecond_bounds nowNotBefore) as Hb1.
  pose proof (truncateToSecond_bounds (nowNotAfter + CertValidityPeriod)) as Hb2.
  assert (Hv : ∀ t,
    ValidateClientCertificate t
      [mkBlock "CERTIFICATE"
         (DerCertificate
            (mkX509 1 commonName (truncateToSecond nowNotBefore)
               (truncateToSecond (nowNotAfter + CertValidityPeriod)))
            (PublicKey key) key)] = None
    ↔ (truncateToSecond nowNotBefore ≤ t
       ≤ truncateToSecond (nowNotAfter + CertValidityPeriod))%Z).
  { intros t. by rewrite ValidateClientCertificate_window. }
  split; [done|]. split; [done|].
  split; [eexists _, _; simpl; repeat split; done|].
  split; [lia|]. split; [lia|]. split; [exact Hv|].
  split; [|split; [|done]].
  - intros Hle. split.
    + intros t Ht. apply Hv. lia.
    + intros t Ht. unfold ValidateClientCertificate. simpl.
      destruct (Z.ltb_spec t (truncateToSecond nowNotBefore)); simpl; [done|].
      destruct (Z.ltb_spec (truncateToSecond (nowNotAfter + CertValidityPeriod)) t);
        simpl; [done|]. lia.
  - intros -> Hwhole t. rewrite Hv, truncateToSecond_add_period, Hwhole. done.
Qed.

Lemma certificate_window_witness :
  ∃ cert,
    sampleCertificate = inl cert
    ∧ ValidateClientCertificate 1500000000 (cCertificate cert) = None
    ∧ ValidateClientCertificate 31536000500000000 (cCertificate cert) = None
    ∧ ValidateClientCertificate 31536001500000001 (cCertificate cert)
      = Some "certificate is not valid at current time"
    ∧ ValidateClientCertificate 500000000 (cCertificate cert)
      = Some "certificate is not valid at current time".
Proof.
  eexists. split; [reflexivity|].
  destruct (certificate_window (inl sampleKey) None None "c1" 1500000000 1500000000
              "n1" "edge-n1" ∅ _ eq_refl)
    as (Hi & He & _ & _ & _ & _ & Hord & _).
  destruct Hord as [Hin Hout]; [lia|].
  split; [|split; [|split]].
  - apply Hin. rewrite Hi. lia.
  - apply Hin. rewrite Hi. lia.
  - apply Hout. rewrite He. lia.
  - apply Hout. rewrite Hi. lia.
Defined.

(** * Further properties of the code *)

(** ** The node registry *)

Lemma bindNodeRegistrationRequest_nil req :
  bindNodeRegistrationRequest req = [] ↔ nrName req ≠ "" ∧ nrAddress req ≠ "".
Proof.
  unfold bindNodeRegistrationRequest. rewrite app_nil, !requiredString_nil. tauto.
Qed.

Lemma RegisterNode_accepted nodeID now req (nodes : gmap string EdgeNode) :
  nrName req ≠ "" → nrAddress req ≠ "" →
  let node :=
    mkEdgeNode nodeID (nrName req) (nrAddress req) NodeStatusOnline now
      (default ∅ (nrLabels req)) (nrCapabilities req)
      (if decide (nrRegion req = "") then "default" else nrRegion req)
      (if decide (nrZone req = "") then "default" else nrZone req)
      (nrKubernetesVersion req) (nrContainerRuntime req) now now in
  RegisterNode nodeID now req nodes = (NodeCreated nodeID node, <[nodeID := node]> nodes).
Proof.
  intros Hn Ha. unfold RegisterNode.
  rewrite (proj2 (bindNodeRegistrationRequest_nil req)) by done. simpl.
  destruct (String.eqb_spec (nrRegion req) ""); simpl;
    destruct (String.eqb_spec (nrZone req) ""); simpl;
    repeat case_decide; done.
Qed.

(** Registration rejects a request without a name or an address with a
    validation error and leaves the registry as it was.  Otherwise the node is
    stored under the fresh identifier, online, with its last heartbeat at the
    instant of the call, an empty region or zone replaced by "default", and
    [GetNode] on that identifier returns it; the other entries are not
    touched. *)
Theorem RegisterNode_spec nodeID now req (nodes : gmap string EdgeNode) :
  (nrName req = "" ∨ nrAddress req = "" →
   ∃ failed, failed ≠ []
     ∧ RegisterNode nodeID now req nodes = (NodeBadRequest failed, nodes))
  ∧ (nrName req ≠ "" → nrAddress req ≠ "" →
     ∃ node,
       RegisterNode nodeID now req nodes
       = (NodeCreated nodeID node, <[nodeID := node]> nodes)
       ∧ GetNode nodeID (RegisterNode nodeID now req nodes).2 = NodeFound node
       ∧ ID node = nodeID
       ∧ Status node = NodeStatusOnline
       ∧ LastHeartbeat node = now
       ∧ Region node = (if decide (nrRegion req = "") then "default" else nrRegion req)
       ∧ Zone node = (if decide (nrZone req = "") then "default" else nrZone req)
       ∧ Labels node = default ∅ (nrLabels req)
       ∧ ∀ other, other ≠ nodeID →
           GetNode other (RegisterNode nodeID now req nodes).2 = GetNode other nodes).
Proof.
  split.
  - intros Hmiss. unfold RegisterNode.
    destruct (bindNodeRegistrationRequest req) as [|f fs] eqn:E.
    + apply bindNodeRegistrationRequest_nil in E. tauto.
    + eexists. split; [|reflexivity]. done.
  - intros Hn Ha. rewrite (RegisterNode_accepted nodeID now req nodes Hn Ha).
    eexists. split; [reflexivity|]. simpl. unfold GetNode.
    rewrite lookup_insert_eq. repeat (split; [reflexivity|]).
    intros other Hne. by rewrite lookup_insert_ne.
Qed.

Lemma RegisterNode_spec_witness :
  (∃ failed, failed ≠ []
     ∧ RegisterNode "n9" 70 (sampleRegistration "" "eu") sampleNodes
       = (NodeBadRequest failed, sampleNodes))
  ∧ ∃ node,
      GetNode "n9" (RegisterNode "n9" 70 (sampleRegistration "edge-9" "") sampleNodes).2
      = NodeFound node
      ∧ Region node = "default".
Proof.
  split.
  - apply (proj1 (RegisterNode_spec "n9" 70 (sampleRegistration "" "eu") sampleNodes)).
    left. reflexivity.
  - destruct (proj2 (RegisterNode_spec "n9" 70 (sampleRegistration "edge-9" "") sampleNodes))
      as (node & _ & Hget & _ & _ & _ & Hreg & _);
      [simpl; discriminate | simpl; discriminate |].
    exists node. split; [exact Hget | exact Hreg].
Defined.

(** A node that was just registered can receive a workload at once: for a
    workload without constraints and with a replica count that is not
    negative, a scheduling attempt over any enumeration of the registry that
    contains the node returns no error and leaves the workload RUNNING. *)
Theorem registered_node_is_schedulable nodeID now req (nodes : gmap string EdgeNode)
    node later registry workload :
  (RegisterNode nodeID now req nodes).1 = NodeCreated nodeID node →
  node ∈ registry →
  Constraints (wPlacement workload) = [] →
  (0 ≤ wReplicas workload)%Z →
  node ∈ candidateSet registry workload
  ∧ ∃ workload',
      scheduleWorkload later registry workload = Ok (workload', None)
      ∧ wStatus workload' = WorkloadStatusRunning
      ∧ wDeployments workload' ≠ wDeployments workload.
Proof.
  intros Hreg Hin Hcs Hr.
  assert (Hon : Status node = NodeStatusOnline).
  { unfold RegisterNode in Hreg.
    destruct (bindNodeRegistrationRequest req); simpl in Hreg; [|done].
    injection Hreg as <-.
    destruct (String.eqb (nrRegion req) ""); simpl;
      destruct (String.eqb _ ""); reflexivity. }
  assert (Hc : node ∈ candidateSet registry workload).
  { unfold candidateSet. rewrite Hcs. apply list_elem_of_filter. split; [|done].
    split; done. }
  split; [exact Hc|].
  unfold scheduleWorkload. rewrite selectNodesForWorkload_candidates.
  destruct (selectEdgeFirstNodes (candidateSet registry workload) workload)
    as [sel|msg] eqn:Es.
  2:{ destruct (selectEdgeFirstNodes_safe (candidateSet registry workload) workload
                  (or_introl Hr)) as [l Hl]. congruence. }
  simpl.
  assert (Hsel : sel ≠ []).
  { unfold selectEdgeFirstNodes in Es.
    destruct (Nat.eqb_spec (length (candidateSet registry workload)) 0) as [H0|H0].
    { apply length_zero_iff_nil in H0. rewrite H0 in Hc. by apply elem_of_nil in Hc. }
    destruct (Z.leb_spec (Z.of_nat (length (candidateSet registry workload)))
                (if (wReplicas workload =? 0)%Z then 1%Z else wReplicas workload)).
    - injection Es as <-. intros Hnil. by rewrite Hnil in H0.
    - unfold slice_to in Es.
      destruct ((_ <? 0)%Z || _)%bool; [done|]. injection Es as <-.
      intros Hnil. apply (f_equal length) in Hnil. rewrite length_take in Hnil.
      simpl in Hnil. destruct (Z.eqb_spec (wReplicas workload) 0); lia. }
  destruct (Nat.eqb_spec (length sel) 0) as [H0|_].
  { by apply length_zero_iff_nil in H0. }
  eexists. split; [reflexivity|]. split; [reflexivity|].
  rewrite deployTo_records. simpl. intros Heq.
  apply (f_equal length) in Heq. rewrite length_app, length_fmap in Heq.
  destruct sel; [done | simpl in Heq; lia].
Qed.

Lemma registered_node_is_schedulable_witness :
  ∃ workload',
    (RegisterNode "n9" 70 (sampleRegistration "edge-9" "") sampleNodes).1
    = NodeCreated "n9" sampleRegistered
    ∧ scheduleWorkload 80 [sampleRegistered] (sampleWorkload 3 [] WorkloadStatusPending)
      = Ok (workload', None)
    ∧ wStatus workload' = WorkloadStatusRunning.
Proof.
  destruct (registered_node_is_schedulable "n9" 70 (sampleRegistration "edge-9" "")
              sampleNodes sampleRegistered 80 [sampleRegistered]
              (sampleWorkload 3 [] WorkloadStatusPending))
    as (_ & w' & Hrun & Hst & _).
  - vm_compute. reflexivity.
  - apply list_elem_of_singleton. reflexivity.
  - reflexivity.
  - simpl. lia.
  - exists w'. split; [vm_compute; reflexivity|]. split; [exact Hrun | exact Hst].
Defined.

(** Unregistering an unknown identifier answers NotFound and changes nothing.
    Unregistering a registered node removes its entry and no other; [GetNode]
    then answers NotFound, and so does a later heartbeat of the node.
    Registering under an unused identifier and unregistering it again gives
    back the registry one started from. *)
Theorem UnregisterNode_spec nodeID (nodes : gmap string EdgeNode) :
  (nodes !! nodeID = None →
   UnregisterNode nodeID nodes = (NodeNotFound "Node not found", nodes))
  ∧ (is_Some (nodes !! nodeID) →
     UnregisterNode nodeID nodes
     = (NodeMessage "Node unregistered successfully", delete nodeID nodes)
     ∧ GetNode nodeID (UnregisterNode nodeID nodes).2 = NodeNotFound "Node not found"
     ∧ (∀ now req,
          (NodeHeartbeat now nodeID req (UnregisterNode nodeID nodes).2).1
          = NodeNotFound "Node not found")
     ∧ ∀ other, other ≠ nodeID →
         GetNode other (UnregisterNode nodeID nodes).2 = GetNode other nodes)
  ∧ (∀ now req,
       nodes !! nodeID = None → nrName req ≠ "" → nrAddress req ≠ "" →
       (UnregisterNode nodeID (RegisterNode nodeID now req nodes).2).2 = nodes).
Proof.
  split; [|split].
  - intros Hn. unfold UnregisterNode. by rewrite Hn.
  - intros [node Hs]. unfold UnregisterNode. rewrite Hs. simpl.
    split; [done|]. unfold GetNode, NodeHeartbeat.
    rewrite lookup_delete_eq. split; [done|]. split; [done|].
    intros other Hne. by rewrite lookup_delete_ne.
  - intros now req Hn Hname Haddr.
    rewrite (RegisterNode_accepted nodeID now req nodes Hname Haddr). simpl.
    unfold UnregisterNode. rewrite lookup_insert_eq. simpl.
    rewrite delete_insert_eq. by apply delete_id.
Qed.

Lemma UnregisterNode_spec_witness :
  UnregisterNode "n404" sampleNodes = (NodeNotFound "Node not found", sampleNodes)
  ∧ GetNode "n1" (UnregisterNode "n1" sampleNodes).2 = NodeNotFound "Node not found"
  ∧ (UnregisterNode "n9"
       (RegisterNode "n9" 70 (sampleRegistration "edge-9" "eu") sampleNodes).2).2
    = sampleNodes.
Proof.
  split; [|split].
  - apply (proj1 (UnregisterNode_spec "n404" sampleNodes)). vm_compute. reflexivity.
  - apply (proj1 (proj2 (UnregisterNode_spec "n1" sampleNodes))).
    eexists. vm_compute. reflexivity.
  - apply (proj2 (proj2 (UnregisterNode_spec "n9" sampleNodes)));
      [vm_compute; reflexivity | simpl; discriminate | simpl; discriminate].
Defined.

Lemma heartbeat_matches node s t cs :
  nodeMatchesConstraints (set_UpdatedAt (set_LastHeartbeat (set_Status node s) t) t) cs
  = nodeMatchesConstraints node cs.
Proof. induction cs as [|c rest IH]; simpl; [done|]. by rewrite IH. Qed.

(** A heartbeat for an unknown identifier answers NotFound and changes
    nothing.  For a registered node it overwrites the status with the reported
    one and stamps the last heartbeat and the update time with the
    orchestrator's clock; the time stamp carried by the request is not used.
    Identity, address, labels, capabilities, region and zone are kept, so the
    node matches the same constraints as before. *)
Theorem NodeHeartbeat_spec now nodeID req (nodes : gmap string EdgeNode) :
  (nodes !! nodeID = None →
   NodeHeartbeat now nodeID req nodes = (NodeNotFound "Node not found", nodes))
  ∧ (∀ node, nodes !! nodeID = Some node →
       ∃ node',
         NodeHeartbeat now nodeID req nodes
         = (NodeMessage "Heartbeat received", <[nodeID := node']> nodes)
         ∧ Status node' = hbStatus req
         ∧ LastHeartbeat node' = now
         ∧ UpdatedAt node' = now
         ∧ ID node' = ID node ∧ Name node' = Name node ∧ Address node' = Address node
         ∧ Labels node' = Labels node ∧ Capabilities node' = Capabilities node
         ∧ Region node' = Region node ∧ Zone node' = Zone node
         ∧ CreatedAt node' = CreatedAt node
         ∧ ∀ cs, nodeMatchesConstraints node' cs = nodeMatchesConstraints node cs)
  ∧ (∀ reported,
       NodeHeartbeat now nodeID (mkHeartbeatRequest (hbStatus req) reported) nodes
       = NodeHeartbeat now nodeID req nodes).
Proof.
  split; [|split].
  - intros Hn. unfold NodeHeartbeat. by rewrite Hn.
  - intros node Hs. unfold NodeHeartbeat. rewrite Hs.
    eexists. split; [reflexivity|]. simpl. repeat (split; [reflexivity|]).
    intros cs. apply heartbeat_matches.
  - intros reported. unfold NodeHeartbeat. by destruct (nodes !! nodeID).
Qed.

Lemma NodeHeartbeat_spec_witness :
  NodeHeartbeat 500 "n404" (mkHeartbeatRequest NodeStatusDegraded 1) sampleNodes
  = (NodeNotFound "Node not found", sampleNodes)
  ∧ ∃ node',
      NodeHeartbeat 500 "n1" (mkHeartbeatRequest NodeStatusDegraded 1) sampleNodes
      = (NodeMessage "Heartbeat received", <["n1" := node']> sampleNodes)
      ∧ Status node' = NodeStatusDegraded
      ∧ LastHeartbeat node' = 500%Z.
Proof.
  destruct (NodeHeartbeat_spec 500 "n1" (mkHeartbeatRequest NodeStatusDegraded 1) sampleNodes)
    as (_ & Hknown & _).
  split.
  - apply (proj1 (NodeHeartbeat_spec 500 "n404" (mkHeartbeatRequest NodeStatusDegraded 1)
                    sampleNodes)).
    vm_compute. reflexivity.
  - destruct (Hknown (sampleNode "n1" "eu" NodeStatusOnline 0)) as (n' & Hrun & Hs & Hl & _).
    + vm_compute. reflexivity.
    + exists n'. split; [exact Hrun|]. split; [exact Hs | exact Hl].
Defined.

(** ** Heartbeats, the sweep and the scheduler together *)

(** The heartbeat an edge agent sends, which always reports "online", buys
    exactly the staleness threshold: a
    sweep at most two minutes after it leaves the node online, whatever its
    status was before (a node swept to OFFLINE is revived), and the node is
    then eligible for exactly the constraints it matches; a sweep more than two
    minutes after it sets the node OFFLINE, and it is eligible for nothing. *)
Theorem heartbeat_buys_two_minutes t nodeID (nodes : gmap string EdgeNode) node reported now :
  nodes !! nodeID = Some node →
  let nodes' := (NodeHeartbeat t nodeID (Agent.heartbeatRequest reported) nodes).2 in
  ((now - t ≤ 2 * Minute)%Z →
   ∃ node', Go.checkNodeHealth now nodes' !! nodeID = Some node'
     ∧ Status node' = NodeStatusOnline
     ∧ LastHeartbeat node' = t
     ∧ ∀ cs, eligible cs node' ↔ nodeMatchesConstraints node cs = true)
  ∧ ((now - t > 2 * Minute)%Z →
     ∃ node', Go.checkNodeHealth now nodes' !! nodeID = Some node'
       ∧ Status node' = NodeStatusOffline
       ∧ ∀ cs, ¬ eligible cs node').
Proof.
  intros Hs nodes'. unfold nodes', NodeHeartbeat. rewrite Hs. simpl.
  unfold Go.checkNodeHealth. rewrite lookup_fmap, lookup_insert_eq. simpl.
  rewrite Go_checkOneNode_cases. simpl. split; intros Hage.
  - destruct (decide _) as [[? _]|_]; [lia|].
    eexists. split; [reflexivity|]. simpl. split; [done|]. split; [done|].
    intros cs. unfold eligible. simpl. rewrite heartbeat_matches. tauto.
  - destruct (decide _) as [_|Hn]; [|destruct Hn; split; [lia | done]].
    eexists. split; [reflexivity|]. simpl. split; [done|].
    intros cs [Hon _]. simpl in Hon. done.
Qed.

Lemma heartbeat_buys_two_minutes_witness :
  ∃ node',
    Go.checkNodeHealth (4 * Minute)
      (NodeHeartbeat (3 * Minute) "n7" (Agent.heartbeatRequest 0)
         (Go.checkNodeHealth (3 * Minute) {[ "n7" := degradedNode ]})).2 !! "n7"
    = Some node'
    ∧ Status node' = NodeStatusOnline.
Proof.
  destruct (heartbeat_buys_two_minutes (3 * Minute) "n7"
              (Go.checkNodeHealth (3 * Minute) {[ "n7" := degradedNode ]})
              (set_UpdatedAt (set_Status degradedNode NodeStatusOffline) (3 * Minute))
              0 (4 * Minute)) as [Hin _].
  - vm_compute. reflexivity.
  - destruct Hin as (n' & Hl & Hs & _); [vm_compute; discriminate|].
    exists n'. split; [exact Hl | exact Hs].
Defined.

(** Right after a sweep at [now], scheduling never places a workload on a
    node whose last heartbeat is older than the staleness threshold: over any
    enumeration of the swept registry, every candidate and every selected node
    is fresh at [now]. *)
Theorem swept_registry_offers_fresh_nodes now (nodes : gmap string EdgeNode)
    registry workload :
  (∀ node, node ∈ registry → ∃ k, Go.checkNodeHealth now nodes !! k = Some node) →
  Forall (fresh now) (candidateSet registry workload)
  ∧ ∀ selected, selectNodesForWorkload registry workload = Ok selected →
      Forall (fresh now) selected.
Proof.
  intros Henum.
  assert (HC : Forall (fresh now) (candidateSet registry workload)).
  { apply Forall_forall. intros node Hin.
    apply list_elem_of_filter in Hin as [[Hon _] Hreg].
    destruct (Henum node Hreg) as [k Hk]. unfold Go.checkNodeHealth in Hk.
    rewrite lookup_fmap in Hk. destruct (nodes !! k) as [n0|]; simpl in Hk; [|done].
    injection Hk as <-. rewrite Go_checkOneNode_cases in Hon |- *.
    unfold fresh. destruct (decide _) as [[Hst Hoff]|Hn]; simpl in *; [done|].
    destruct (decide (now - LastHeartbeat n0 ≤ 2 * Minute)%Z) as [|Hgt]; [done|].
    destruct Hn. split; [lia|]. rewrite Hon. done. }
  split; [exact HC|]. intros selected Hsel.
  rewrite selectNodesForWorkload_candidates in Hsel. unfold selectEdgeFirstNodes in Hsel.
  destruct (length (candidateSet registry workload) =? 0)%nat.
  { injection Hsel as <-. constructor. }
  destruct (_ <=? _)%Z; [by injection Hsel as <-|].
  unfold slice_to in Hsel. destruct (_ || _)%bool; [done|]. injection Hsel as <-.
  by apply Forall_take.
Qed.

Lemma swept_registry_offers_fresh_nodes_witness :
  Status <$> sweptRegistry = [NodeStatusOnline; NodeStatusOffline]
  ∧ candidateSet sweptRegistry (sampleWorkload 2 [] WorkloadStatusPending)
    = [sampleNode "n1" "eu" NodeStatusOnline (2 * Minute)]
  ∧ selectNodesForWorkload sweptRegistry (sampleWorkload 2 [] WorkloadStatusPending)
    = Ok [sampleNode "n1" "eu" NodeStatusOnline (2 * Minute)]
  ∧ Forall (fresh (3 * Minute))
      (candidateSet sweptRegistry (sampleWorkload 2 [] WorkloadStatusPending))
  ∧ Forall (fresh (3 * Minute)) [sampleNode "n1" "eu" NodeStatusOnline (2 * Minute)].
Proof.
  split; [vm_compute; reflexivity|]. split; [vm_compute; reflexivity|].
  split; [vm_compute; reflexivity|].
  destruct (swept_registry_offers_fresh_nodes (3 * Minute) twoNodes sweptRegistry
              (sampleWorkload 2 [] WorkloadStatusPending)) as [Hc Hs].
  - intros node Hin. unfold sweptRegistry in Hin.
    apply list_elem_of_fmap in Hin as ([k n] & -> & Hin).
    apply elem_of_map_to_list in Hin. exists k. exact Hin.
  - split; [exact Hc|]. apply Hs. vm_compute. reflexivity.
Defined.

(** ** What the scheduler ignores *)

(** The placement strategy has no influence on the selection: replacing the
    strategy of a workload by any other string selects the same nodes. *)
Theorem strategy_is_ignored registry workload strategy :
  selectNodesForWorkload registry (set_wStrategy workload strategy)
  = selectNodesForWorkload registry workload.
Proof.
  rewrite !selectNodesForWorkload_candidates. reflexivity.
Qed.

(** The operator of a constraint is never consulted: whatever it says, the
    constraint demands membership in the value list, so that "NotIn" selects
    the same nodes as "In". *)
Theorem operator_is_ignored node constraints operator :
  nodeMatchesConstraints node
    ((λ c, mkConstraint (Key c) operator (Values c)) <$> constraints)
  = nodeMatchesConstraints node constraints.
Proof.
  induction constraints as [|c rest IH]; [done|].
  rewrite fmap_cons. cbn [nodeMatchesConstraints Key Values]. by rewrite IH.
Qed.

(** A constraint with an empty value list matches no node: a workload that
    carries one has no candidate in any registry and every scheduling attempt
    ends with the error, the workload unchanged. *)
Theorem empty_value_list_blocks key operator now registry workload :
  mkConstraint key operator [] ∈ Constraints (wPlacement workload) →
  candidateSet registry workload = []
  ∧ scheduleWorkload now registry workload
    = Ok (workload, Some ("no suitable nodes found for workload " +:+ wName workload)).
Proof.
  intros Hin.
  assert (HC : candidateSet registry workload = []).
  { destruct (candidateSet registry workload) as [|node l] eqn:E; [done|].
    assert (Hn : node ∈ candidateSet registry workload) by (rewrite E; left).
    apply list_elem_of_filter in Hn as [[_ Hm] _].
    apply nodeMatchesConstraints_Forall in Hm. rewrite Forall_forall in Hm.
    destruct (Hm _ Hin) as [[_ He]|[[_ He]|(_ & _ & v & _ & He)]]; simpl in He;
      by apply elem_of_nil in He. }
  split; [exact HC | by apply scheduleWorkload_empty].
Qed.

Lemma empty_value_list_blocks_witness :
  candidateSet sampleRegistry
    (sampleWorkload 2 [mkConstraint "tier" "In" []] WorkloadStatusPending) = [].
Proof.
  apply (empty_value_list_blocks "tier" "In" 0 sampleRegistry
           (sampleWorkload 2 [mkConstraint "tier" "In" []] WorkloadStatusPending)).
  apply list_elem_of_singleton. reflexivity.
Defined.

(** ** The scheduling tick *)

Lemma scheduleWorkload_result now registry workload workload' err :
  scheduleWorkload now registry workload = Ok (workload', err) →
  (selectNodesForWorkload registry workload = Ok [] ∧ workload' = workload ∧ is_Some err)
  ∨ (∃ nodes, nodes ≠ []
       ∧ selectNodesForWorkload registry workload = Ok nodes
       ∧ err = None
       ∧ workload'
         = set_wUpdatedAt
             (set_wStatus
                (set_wDeployments workload
                   (wDeployments workload ++ (recordFor now <$> nodes)))
                WorkloadStatusRunning) now).
Proof.
  unfold scheduleWorkload.
  destruct (selectNodesForWorkload registry workload) as [nodes|msg]; simpl; [|done].
  destruct (Nat.eqb_spec (length nodes) 0) as [H0|H0]; intros [= <- <-].
  - apply length_zero_iff_nil in H0 as ->. left. eauto.
  - right. exists nodes. rewrite deployTo_records.
    split; [by intros ->|]. done.
Qed.

Lemma scheduledFrom_trans now w1 w2 w3 :
  scheduledFrom now w1 w2 → scheduledFrom now w2 w3 → scheduledFrom now w1 w3.
Proof.
  intros [->|(Hp & nodes & Hne & ->)] H23; [done|].
  destruct H23 as [->|(Hp2 & _)].
  - right. eauto.
  - simpl in Hp2. discriminate.
Qed.

Lemma scheduleWorkloadsRange_frame now registryAt keys :
  ∀ (ws ws' : gmap string Workload),
    scheduleWorkloadsRange now registryAt keys ws = Ok ws' →
    ∀ k, (ws !! k = None → ws' !! k = None)
         ∧ ∀ w, ws !! k = Some w → ∃ w', ws' !! k = Some w' ∧ scheduledFrom now w w'.
Proof.
  induction keys as [|k0 rest IH]; intros ws ws'; simpl.
  { intros [= <-] k. split; [done|]. intros w Hw. exists w. split; [done | by left]. }
  destruct (ws !! k0) as [w0|] eqn:E0; [|by apply IH].
  destruct (String.eqb_spec (wStatus w0) WorkloadStatusPending) as [Hp|Hp];
    [|by apply IH].
  destruct (scheduleWorkload now (registryAt k0) w0) as [[w1 e]|msg] eqn:Es; simpl; [|done].
  intros Hrest k. specialize (IH _ _ Hrest k) as [IHn IHs].
  destruct (decide (k0 = k)) as [->|Hne].
  - split; [by rewrite E0|]. intros w Hw. rewrite E0 in Hw. injection Hw as <-.
    destruct (IHs w1) as (w' & Hw' & H1); [by rewrite lookup_insert_eq|].
    exists w'. split; [done|]. eapply scheduledFrom_trans; [|exact H1].
    apply scheduleWorkload_result in Es as [(_ & -> & _)|(nodes & Hne & _ & _ & ->)].
    + by left.
    + right. eauto.
  - rewrite lookup_insert_ne in IHn, IHs by done. split; [exact IHn | exact IHs].
Qed.

(** A tick that completes neither adds nor removes a workload.  It leaves
    every workload that was not PENDING exactly as it was, and a PENDING one
    either as it was or RUNNING, with records appended to those it had, one
    per node of a non-empty selection, and nothing else changed but the update
    time: deployment records are never removed or rewritten. *)
Theorem tick_only_appends now registryAt keys (workloads workloads' : gmap string Workload) :
  scheduleWorkloadsRange now registryAt keys workloads = Ok workloads' →
  ∀ k,
    (workloads !! k = None → workloads' !! k = None)
    ∧ ∀ w, workloads !! k = Some w →
        ∃ w', workloads' !! k = Some w'
          ∧ scheduledFrom now w w'
          ∧ (wStatus w ≠ WorkloadStatusPending → w' = w).
Proof.
  intros Hrun k.
  destruct (scheduleWorkloadsRange_frame _ _ _ _ _ Hrun k) as [Hn Hs]. split; [exact Hn|].
  intros w Hw. destruct (Hs w Hw) as (w' & Hw' & Hsf). exists w'.
  split; [done|]. split; [done|]. intros Hnp. by destruct Hsf as [->|[? _]].
Qed.

Lemma tick_only_appends_witness :
  ∃ w',
    (∃ workloads',
       scheduleWorkloads 60 (λ _, sampleRegistry) pendingWorkloads = Ok workloads'
       ∧ workloads' !! "w1" = Some w'
       ∧ workloads' !! "w2" = None)
    ∧ wStatus w' = WorkloadStatusRunning
    ∧ length (wDeployments w') = 2%nat
    ∧ scheduledFrom 60 (sampleWorkload 2 [] WorkloadStatusPending) w'.
Proof.
  destruct (scheduleWorkloads 60 (λ _, sampleRegistry) pendingWorkloads)
    as [ws'|msg] eqn:E; [|vm_compute in E; discriminate].
  destruct (tick_only_appends 60 (λ _, sampleRegistry) _ pendingWorkloads ws' E "w1")
    as [_ Hs].
  destruct (tick_only_appends 60 (λ _, sampleRegistry) _ pendingWorkloads ws' E "w2")
    as [Hn _].
  destruct (Hs (sampleWorkload 2 [] WorkloadStatusPending)) as (w' & Hw' & Hsf & _);
    [vm_compute; reflexivity|].
  exists w'. split; [exists ws'; split; [done|]; split; [done|]; by apply Hn|].
  vm_compute in E. injection E as <-. vm_compute in Hw'. injection Hw' as <-.
  split; [reflexivity|]. split; [reflexivity|]. exact Hsf.
Defined.





(** ** Scaling, deleting and rescheduling *)

(** Rescheduling after a scale request never replaces what was deployed: for a
    workload scaled to [n ≥ 1], the next scheduling attempt with candidates
    [C] keeps every earlier record and appends [min n |C|] new ones.  The
    number of records after the attempt is the old number plus [min n |C|],
    not [n], also when [n] is smaller than the old replica count. *)
Theorem rescale_appends_records t now workloadID n (workloads : gmap string Workload)
    workload registry :
  workloads !! workloadID = Some workload →
  (1 ≤ n)%Z →
  candidateSet registry workload ≠ [] →
  let C := candidateSet registry workload in
  ∃ scaled rescheduled,
    (ScaleWorkload t workloadID (mkScaleRequest n) workloads).2 !! workloadID = Some scaled
    ∧ scheduleWorkload now registry scaled = Ok (rescheduled, None)
    ∧ wDeployments rescheduled
      = wDeployments workload
        ++ (recordFor now <$> take (Z.to_nat (Z.min n (Z.of_nat (length C)))) C)
    ∧ Z.of_nat (length (wDeployments rescheduled))
      = (Z.of_nat (length (wDeployments workload)) + Z.min n (Z.of_nat (length C)))%Z.
Proof.
  intros Hk Hn HC C.
  unfold ScaleWorkload, bindScaleWorkloadRequest, requiredInt. simpl.
  destruct (Z.eqb_spec n 0) as [?|_]; [lia|]. rewrite Hk. simpl.
  set (scaled := set_wUpdatedAt
                   (set_wStatus (set_wReplicas workload n) WorkloadStatusPending) t).
  exists scaled. rewrite lookup_insert_eq.
  assert (HCs : candidateSet registry scaled = C) by reflexivity.
  assert (Hlen : (0 < length (take (Z.to_nat (Z.min n (Z.of_nat (length C)))) C))%nat).
  { rewrite length_take.
    assert (length C ≠ 0%nat) by (intros ?%length_zero_iff_nil; done). lia. }
  eexists. split; [reflexivity|]. split; [|split].
  - unfold scheduleWorkload. rewrite selectNodesForWorkload_candidates, HCs.
    rewrite selectEdgeFirstNodes_positive by (simpl; lia). simpl.
    destruct (Nat.eqb_spec (length (take (Z.to_nat (Z.min n (Z.of_nat (length C)))) C)) 0);
      [lia|].
    rewrite deployTo_records. reflexivity.
  - reflexivity.
  - simpl. rewrite length_app, length_fmap, length_take. lia.
Qed.

Lemma rescale_appends_records_witness :
  ∃ scaled rescheduled,
    (ScaleWorkload 50 "w1" (mkScaleRequest 1)
       {[ "w1" := set_wDeployments (sampleWorkload 2 [] WorkloadStatusRunning)
                    [mkDeployment "n1" WorkloadStatusRunning 1 9 9;
                     mkDeployment "n2" WorkloadStatusRunning 1 9 9] ]}).2 !! "w1"
    = Some scaled
    ∧ scheduleWorkload 60 sampleRegistry scaled = Ok (rescheduled, None)
    ∧ dNodeID <$> wDeployments rescheduled = ["n1"; "n2"; "n1"].
Proof.
  destruct (rescale_appends_records 50 60 "w1" 1
              {[ "w1" := set_wDeployments (sampleWorkload 2 [] WorkloadStatusRunning)
                           [mkDeployment "n1" WorkloadStatusRunning 1 9 9;
                            mkDeployment "n2" WorkloadStatusRunning 1 9 9] ]}
              (set_wDeployments (sampleWorkload 2 [] WorkloadStatusRunning)
                 [mkDeployment "n1" WorkloadStatusRunning 1 9 9;
                  mkDeployment "n2" WorkloadStatusRunning 1 9 9])
              sampleRegistry)
    as (scaled & rescheduled & Hs & Hrun & Hdep & _).
  - vm_compute. reflexivity.
  - lia.
  - vm_compute. discriminate.
  - exists scaled, rescheduled. split; [exact Hs|]. split; [exact Hrun|].
    rewrite Hdep. vm_compute. reflexivity.
Defined.

(** Deleting an unknown workload answers NotFound and changes nothing.
    Deleting a known one removes its entry and no other; afterwards [GetWorkload]
    and a scale request for it answer NotFound, and no tick visits it.  Creating
    a workload under an unused identifier and deleting it again gives back the
    map one started from. *)
Theorem DeleteWorkload_spec workloadID (workloads : gmap string Workload) :
  (workloads !! workloadID = None →
   DeleteWorkload workloadID workloads = (WorkloadNotFound "Workload not found", workloads))
  ∧ (is_Some (workloads !! workloadID) →
     DeleteWorkload workloadID workloads
     = (WorkloadMessage "Workload deleted successfully", delete workloadID workloads)
     ∧ GetWorkload workloadID (DeleteWorkload workloadID workloads).2
       = WorkloadNotFound "Workload not found"
     ∧ (∀ now n, n ≠ 0%Z →
          (ScaleWorkload now workloadID (mkScaleRequest n)
             (DeleteWorkload workloadID workloads).2).1
          = StatusNotFound "Workload not found")
     ∧ (∀ now registryAt workloads',
          scheduleWorkloads now registryAt (DeleteWorkload workloadID workloads).2
          = Ok workloads' →
          workloads' !! workloadID = None)
     ∧ ∀ other, other ≠ workloadID →
         GetWorkload other (DeleteWorkload workloadID workloads).2
         = GetWorkload other workloads)
  ∧ (∀ now req,
       workloads !! workloadID = None →
       rName req ≠ "" → rType req ≠ "" → rImage req ≠ "" →
       (DeleteWorkload workloadID (DeployWorkload workloadID now req workloads).2).2
       = workloads).
Proof.
  split; [|split].
  - intros Hn. unfold DeleteWorkload. by rewrite Hn.
  - intros [w Hs]. unfold DeleteWorkload. rewrite Hs. simpl.
    split; [done|]. unfold GetWorkload. rewrite lookup_delete_eq. split; [done|].
    split; [|split].
    + intros now n Hn. unfold ScaleWorkload, bindScaleWorkloadRequest, requiredInt. simpl.
      destruct (Z.eqb_spec n 0); [done|]. by rewrite lookup_delete_eq.
    + intros now registryAt ws' Hrun.
      apply (scheduleWorkloadsRange_frame _ _ _ _ _ Hrun workloadID). apply lookup_delete_eq.
    + intros other Hne. by rewrite lookup_delete_ne.
  - intros now req Hn Hname Hty Him. unfold DeployWorkload.
    rewrite (proj2 (bindWorkloadDeploymentRequest_nil req)) by done. simpl.
    unfold DeleteWorkload. rewrite lookup_insert_eq. simpl.
    rewrite delete_insert_eq. by apply delete_id.
Qed.

Lemma DeleteWorkload_spec_witness :
  DeleteWorkload "w404" sampleWorkloads
  = (WorkloadNotFound "Workload not found", sampleWorkloads)
  ∧ (ScaleWorkload 50 "w1" (mkScaleRequest 3) (DeleteWorkload "w1" sampleWorkloads).2).1
    = StatusNotFound "Workload not found"
  ∧ (DeleteWorkload "w9" (DeployWorkload "w9" 7 (sampleRequest "web" 2) sampleWorkloads).2).2
    = sampleWorkloads.
Proof.
  split; [|split].
  - apply (proj1 (DeleteWorkload_spec "w404" sampleWorkloads)). vm_compute. reflexivity.
  - destruct (proj1 (proj2 (DeleteWorkload_spec "w1" sampleWorkloads)))
      as (_ & _ & Hscale & _); [eexists; vm_compute; reflexivity|].
    apply Hscale. discriminate.
  - apply (proj2 (proj2 (DeleteWorkload_spec "w9" sampleWorkloads)));
      [vm_compute; reflexivity | simpl; discriminate ..].
Defined.

Lemma scheduleWorkload_panic_message now registry workload msg :
  scheduleWorkload now registry workload = Panic msg →
  msg = "slice bounds out of range".
Proof.
  unfold scheduleWorkload. rewrite selectNodesForWorkload_candidates.
  unfold selectEdgeFirstNodes, slice_to.
  destruct (length (candidateSet registry workload) =? 0)%nat; simpl; [done|].
  destruct (_ <=? _)%Z; simpl.
  { destruct (length _ =? 0)%nat; done. }
  destruct (_ || _)%bool; simpl; [congruence|].
  destruct (length _ =? 0)%nat; done.
Qed.

Lemma negative_replicas_stop_the_tick now registryAt keys :
  ∀ (ws : gmap string Workload) k w,
    k ∈ keys → ws !! k = Some w →
    wStatus w = WorkloadStatusPending →
    (wReplicas w < 0)%Z →
    candidateSet (registryAt k) w ≠ [] →
    scheduleWorkloadsRange now registryAt keys ws = Panic "slice bounds out of range".
Proof.
  induction keys as [|k0 rest IH]; intros ws k w Hin Hk Hp Hr HC.
  { by apply elem_of_nil in Hin. }
  simpl. destruct (decide (k0 = k)) as [->|Hne].
  - rewrite Hk, Hp. simpl. unfold scheduleWorkload.
    rewrite selectNodesForWorkload_candidates, selectEdgeFirstNodes_negative by done.
    reflexivity.
  - apply elem_of_cons in Hin as [?|Hin]; [congruence|].
    destruct (ws !! k0) as [w0|] eqn:E0; [|by eapply IH].
    destruct (String.eqb (wStatus w0) WorkloadStatusPending); [|by eapply IH].
    destruct (scheduleWorkload now (registryAt k0) w0) as [[w1 e]|msg] eqn:Es; simpl.
    + eapply IH; [exact Hin| |exact Hp|exact Hr|exact HC]. by rewrite lookup_insert_ne.
    + by rewrite (scheduleWorkload_panic_message _ _ _ _ Es).
Qed.

(** A creation request with a negative replica count is accepted and stored
    as it is, PENDING (only the count zero is replaced by the default).  As
    soon as the registry holds a node eligible for it, every scheduling tick
    that visits the workload ends in the run-time panic of the slice
    expression, whatever the other workloads are. *)
Theorem negative_replicas_from_create workloadID t req (workloads : gmap string Workload)
    now registryAt keys node :
  rName req ≠ "" → rType req ≠ "" → rImage req ≠ "" →
  (rReplicas req < 0)%Z →
  workloadID ∈ keys →
  node ∈ registryAt workloadID →
  eligible (Constraints (rPlacement req)) node →
  (∃ w, (DeployWorkload workloadID t req workloads).2 !! workloadID = Some w
        ∧ wReplicas w = rReplicas req
        ∧ wStatus w = WorkloadStatusPending)
  ∧ scheduleWorkloadsRange now registryAt keys (DeployWorkload workloadID t req workloads).2
    = Panic "slice bounds out of range".
Proof.
  intros Hn Ht Hi Hr Hin Hnode Hel. unfold DeployWorkload.
  rewrite (proj2 (bindWorkloadDeploymentRequest_nil req)) by done.
  set (w0 := mkWorkload workloadID (rName req) (rNamespace req) (rType req)
               (rImage req) (rReplicas req) (rResources req) (rEnvironment req)
               (rLabels req) None (rPlacement req) WorkloadStatusPending [] t t).
  destruct (applyDefaults_fields w0)
    as (_ & _ & _ & _ & _ & _ & Hst & _ & _ & _ & Hcs & _ & _ & Hrep & _).
  simpl in Hst, Hcs, Hrep. destruct (decide (rReplicas req = 0%Z)) as [?|_]; [lia|].
  simpl. split.
  - eexists. rewrite lookup_insert_eq. split; [reflexivity|]. simpl. done.
  - eapply negative_replicas_stop_the_tick; [exact Hin|apply lookup_insert_eq|..].
    + simpl. exact Hst.
    + simpl. lia.
    + unfold candidateSet. simpl. rewrite Hcs. intros Hnil.
      eapply filter_nil_not_elem_of; [exact Hnil|exact Hel|exact Hnode].
Qed.

Lemma negative_replicas_from_create_witness :
  scheduleWorkloadsRange 60 (λ _, sampleRegistry) ["w1"; "w9"]
    (DeployWorkload "w9" 7 (sampleRequest "web" (-3)) sampleWorkloads).2
  = Panic "slice bounds out of range".
Proof.
  apply (proj2 (negative_replicas_from_create "w9" 7 (sampleRequest "web" (-3))
                  sampleWorkloads 60 (λ _, sampleRegistry) ["w1"; "w9"]
                  (sampleNode "n1" "eu" NodeStatusOnline 0)
                  ltac:(simpl; discriminate) ltac:(simpl; discriminate)
                  ltac:(simpl; discriminate) ltac:(simpl; lia)
                  ltac:(right; left)
                  ltac:(left)
                  ltac:(split; reflexivity))).
Defined.

(** ** Metrics *)

Lemma countDeployments_bounds deployments running replicas :
  (running ≤ (countDeployments deployments running replicas).1
   ≤ running + Z.of_nat (length deployments))%Z.
Proof.
  revert running replicas. induction deployments as [|d rest IH]; intros running replicas;
    simpl; [lia|].
  destruct (String.eqb (dStatus d) WorkloadStatusRunning).
  - specialize (IH (running + 1)%Z (int32_wrap (replicas + dReplicas d))). lia.
  - specialize (IH running replicas). lia.
Qed.

Lemma countDeployments_scheduler_records deployments running replicas :
  Forall (λ d, dStatus d = WorkloadStatusRunning ∧ dReplicas d = 1%Z) deployments →
  (-2147483648 ≤ replicas)%Z →
  (replicas + Z.of_nat (length deployments) ≤ 2147483647)%Z →
  countDeployments deployments running replicas
  = ((running + Z.of_nat (length deployments))%Z,
     (replicas + Z.of_nat (length deployments))%Z).
Proof.
  revert running replicas. induction deployments as [|d rest IH];
    intros running replicas Hall Hlo Hhi; simpl.
  { f_equal; lia. }
  apply Forall_cons in Hall as [[Hs Hr] Hall]. rewrite Hs, Hr. simpl in Hhi |- *.
  assert (Hw : int32_wrap (replicas + 1) = (replicas + 1)%Z).
  { unfold int32_wrap. rewrite Z.mod_small by lia. lia. }
  rewrite Hw, IH by (done || lia). f_equal; lia.
Qed.

(** The metrics of a workload the scheduler has just placed: a workload
    without earlier records, with a desired replica count [r ≥ 1], is reported
    RUNNING with [min r |C|] running replicas on as many deployments.  When
    there are fewer candidates than desired replicas the workload is RUNNING
    with fewer running replicas than desired. *)
Theorem metrics_after_scheduling now registry workload workloadID
    (workloads : gmap string Workload) :
  wDeployments workload = [] →
  (1 ≤ wReplicas workload ≤ 2147483647)%Z →
  candidateSet registry workload ≠ [] →
  let placed := Z.min (wReplicas workload) (Z.of_nat (length (candidateSet registry workload))) in
  ∃ workload' metrics,
    scheduleWorkload now registry workload = Ok (workload', None)
    ∧ GetWorkloadMetrics workloadID (<[workloadID := workload']> workloads) = inl metrics
    ∧ workload_status metrics = WorkloadStatusRunning
    ∧ desired_replicas metrics = wReplicas workload
    ∧ running_replicas metrics = placed
    ∧ running_deployments metrics = placed
    ∧ total_deployments metrics = placed.
Proof.
  intros Hds Hr HC placed.
  set (C := candidateSet registry workload) in *.
  set (chosen := take (Z.to_nat placed) C).
  assert (Hlen : Z.of_nat (length chosen) = placed).
  { unfold chosen, placed. rewrite length_take. lia. }
  assert (Hpos : (1 ≤ placed)%Z).
  { assert (length C ≠ 0%nat) by (intros ?%length_zero_iff_nil; done).
    unfold placed. lia. }
  eexists _, _. split; [|split].
  - unfold scheduleWorkload. rewrite selectNodesForWorkload_candidates.
    rewrite selectEdgeFirstNodes_positive by lia. simpl. fold C placed chosen.
    destruct (Nat.eqb_spec (length chosen) 0); [lia|].
    rewrite deployTo_records. reflexivity.
  - unfold GetWorkloadMetrics. rewrite lookup_insert_eq. reflexivity.
  - simpl. rewrite Hds. simpl.
    rewrite countDeployments_scheduler_records.
    + simpl. rewrite !length_fmap, Hlen. repeat split; lia.
    + apply Forall_fmap, Forall_true. done.
    + lia.
    + rewrite length_fmap, Hlen. unfold placed. lia.
Qed.

Lemma metrics_after_scheduling_witness :
  ∃ workload' metrics,
    scheduleWorkload 60 [sampleRegistered] (sampleWorkload 3 [] WorkloadStatusPending)
    = Ok (workload', None)
    ∧ GetWorkloadMetrics "w1" {[ "w1" := workload' ]} = inl metrics
    ∧ workload_status metrics = WorkloadStatusRunning
    ∧ desired_replicas metrics = 3%Z
    ∧ running_replicas metrics = 1%Z.
Proof.
  destruct (metrics_after_scheduling 60 [sampleRegistered]
              (sampleWorkload 3 [] WorkloadStatusPending) "w1" ∅)
    as (w' & m & Hrun & Hm & Hst & Hd & Hr & _).
  - reflexivity.
  - simpl. lia.
  - vm_compute. discriminate.
  - exists w', m. split; [exact Hrun|]. split; [exact Hm|]. split; [exact Hst|].
    split; [exact Hd|]. rewrite Hr. vm_compute. reflexivity.
Defined.

(** [GetWorkloadMetrics] answers NotFound for an unknown workload.  For a
    known one it reports the desired replica count and the number of records
    as they are, and a number of running deployments between zero and the
    number of records. *)
Theorem GetWorkloadMetrics_spec workloadID (workloads : gmap string Workload) :
  (workloads !! workloadID = None →
   GetWorkloadMetrics workloadID workloads = inr "Workload not found")
  ∧ ∀ workload, workloads !! workloadID = Some workload →
      ∃ metrics,
        GetWorkloadMetrics workloadID workloads = inl metrics
        ∧ desired_replicas metrics = wReplicas workload
        ∧ total_deployments metrics = Z.of_nat (length (wDeployments workload))
        ∧ (0 ≤ running_deployments metrics ≤ total_deployments metrics)%Z
        ∧ (Forall (λ d, dStatus d ≠ WorkloadStatusRunning) (wDeployments workload) →
           running_deployments metrics = 0%Z ∧ running_replicas metrics = 0%Z).
Proof.
  split.
  - intros Hn. unfold GetWorkloadMetrics. by rewrite Hn.
  - intros workload Hs. unfold GetWorkloadMetrics. rewrite Hs.
    eexists. split; [reflexivity|]. simpl. split; [done|]. split; [done|]. split.
    + pose proof (countDeployments_bounds (wDeployments workload) 0 0). lia.
    + generalize (wDeployments workload). intros ds Hall.
      induction Hall as [|d rest Hd _ IH]; simpl; [done|].
      destruct (String.eqb_spec (dStatus d) WorkloadStatusRunning); [done|]. exact IH.
Qed.

Lemma GetWorkloadMetrics_spec_witness :
  GetWorkloadMetrics "w404" sampleWorkloads = inr "Workload not found"
  ∧ ∃ metrics,
      GetWorkloadMetrics "w1" sampleWorkloads = inl metrics
      ∧ desired_replicas metrics = 2%Z
      ∧ running_deployments metrics = 0%Z.
Proof.
  destruct (GetWorkloadMetrics_spec "w1" sampleWorkloads) as [_ Hknown].
  split.
  - apply (proj1 (GetWorkloadMetrics_spec "w404" sampleWorkloads)). vm_compute. reflexivity.
  - destruct (Hknown (sampleWorkload 2 [] WorkloadStatusRunning))
      as (m & Hm & Hd & _ & _ & Hz); [vm_compute; reflexivity|].
    exists m. split; [exact Hm|]. split; [exact Hd|]. apply Hz. constructor.
Defined.





(** ** Certificates *)

(** Certificates are stored under their own identifiers: issuing a second
    certificate for a node under another identifier keeps the first, so a node
    may hold several.  Revoking an unknown identifier returns the error and
    changes nothing; revoking a stored certificate deletes exactly its record,
    and a second revocation then fails.  Revocation does not reach the
    certificate itself: the PEM of a revoked certificate passes
    [ValidateClientCertificate] throughout its encoded validity window, from
    the whole second of its issue to the whole second of its expiry, as it
    did before. *)
Theorem certificate_store_and_revocation key1 key2 id1 id2 t1 t1' t2 t2' nodeID cn1 cn2
    (certificates : gmap string Certificate) :
  id1 ≠ id2 →
  let s1 :=
    GenerateCertificate (inl key1) None None id1 t1 t1' nodeID cn1 certificates in
  let s2 := GenerateCertificate (inl key2) None None id2 t2 t2' nodeID cn2 s1.2 in
  ∃ c1 c2,
    s1.1 = inl c1 ∧ s2.1 = inl c2
    ∧ s2.2 !! id1 = Some c1 ∧ s2.2 !! id2 = Some c2
    ∧ cNodeID c1 = nodeID ∧ cNodeID c2 = nodeID
    ∧ RevokeCertificate id1 s2.2 = (None, delete id1 s2.2)
    ∧ (RevokeCertificate id1 s2.2).2 !! id1 = None
    ∧ (RevokeCertificate id1 s2.2).2 !! id2 = Some c2
    ∧ (RevokeCertificate id1 (RevokeCertificate id1 s2.2).2).1
      = Some "certificate not found"
    ∧ (∀ now,
         ValidateClientCertificate now (cCertificate c1) = None
         ↔ (truncateToSecond t1 ≤ now ≤ truncateToSecond (t1' + CertValidityPeriod))%Z)
    ∧ (certificates !! id1 = None →
       RevokeCertificate id1 certificates = (Some "certificate not found", certificates)).
Proof.
  intros Hne. simpl. eexists _, _.
  split; [reflexivity|]. split; [reflexivity|].
  rewrite lookup_insert_ne by done. rewrite !lookup_insert_eq.
  split; [reflexivity|]. split; [reflexivity|]. split; [reflexivity|].
  split; [reflexivity|].
  match goal with |- context [RevokeCertificate id1 ?S] => set (store := S) end.
  assert (H1 : is_Some (store !! id1)).
  { unfold store. rewrite lookup_insert_ne by done. rewrite lookup_insert_eq. by eexists. }
  assert (Hrev : RevokeCertificate id1 store = (None, delete id1 store)).
  { unfold RevokeCertificate. destruct H1 as [c ->]. done. }
  rewrite Hrev. simpl.
  split; [reflexivity|]. split; [apply lookup_delete_eq|]. split.
  { rewrite lookup_delete_ne by done. apply lookup_insert_eq. }
  split.
  { unfold RevokeCertificate. by rewrite lookup_delete_eq. }
  split.
  - intros now. unfold pemEncodeToMemory.
    by rewrite ValidateClientCertificate_window.
  - intros Hn. unfold RevokeCertificate. by rewrite Hn.
Qed.

Lemma certificate_store_and_revocation_witness :
  ∃ c1 c2,
    (GenerateCertificate (inl sampleKey) None None "c2" 2500000000 2500000100
       "n1" "edge-n1"
       (GenerateCertificate (inl sampleKey) None None "c1" 1500000000 1500000100
          "n1" "edge-n1" ∅).2).2 !! "c1"
    = Some c1
    ∧ (GenerateCertificate (inl sampleKey) None None "c2" 2500000000 2500000100
         "n1" "edge-n1"
         (GenerateCertificate (inl sampleKey) None None "c1" 1500000000 1500000100
            "n1" "edge-n1" ∅).2).2 !! "c2"
      = Some c2
    ∧ cNodeID c1 = cNodeID c2
    ∧ (RevokeCertificate "c1"
         (GenerateCertificate (inl sampleKey) None None "c2" 2500000000 2500000100
            "n1" "edge-n1"
            (GenerateCertificate (inl sampleKey) None None "c1" 1500000000 1500000100
               "n1" "edge-n1" ∅).2).2).2 !! "c1" = None
    ∧ ValidateClientCertificate 1200000000 (cCertificate c1) = None
    ∧ ValidateClientCertificate 31536001500000100 (cCertificate c1) ≠ None.
Proof.
  destruct (certificate_store_and_revocation sampleKey sampleKey "c1" "c2"
              1500000000 1500000100 2500000000 2500000100
              "n1" "edge-n1" "edge-n1" ∅)
    as (c1 & c2 & _ & _ & H1 & H2 & Hn1 & Hn2 & _ & Hgone & _ & _ & Hv & _);
    [discriminate|].
  exists c1, c2. split; [exact H1|]. split; [exact H2|].
  split; [by rewrite Hn1, Hn2|]. split; [exact Hgone|]. split.
  - apply Hv. vm_compute. split; discriminate.
  - intros Hok. apply Hv in Hok. vm_compute in Hok. destruct Hok as [_ Hok].
    by apply Hok.
Defined.

(** ** The authentication middleware and the edge agent *)

Lemma substring_all s : String.substring 0 (String.length s) s = s.
Proof. induction s as [|a s IH]; simpl; [done | by rewrite IH]. Qed.

Lemma prefix_append p t : String.prefix p (p +:+ t) = true.
Proof.
  induction p as [|a p IH]; simpl; [by destruct t|].
  destruct (Ascii.ascii_dec a a); [exact IH | done].
Qed.

Lemma prefix_split p s :
  String.prefix p s = true →
  s = p +:+ String.substring (String.length p) (String.length s - String.length p) s.
Proof.
  revert s. induction p as [|a p IH]; intros s; simpl.
  - intros _. by rewrite Nat.sub_0_r, substring_all.
  - destruct s as [|b s]; simpl; [done|].
    destruct (Ascii.ascii_dec a b) as [->|]; [|done].
    intros Hp. change (String b s = String b (p +:+ String.substring (String.length p)
                         (String.length s - String.length p) s)).
    f_equal. by apply IH.
Qed.

Lemma TrimPrefix_append p t : TrimPrefix (p +:+ t) p = t.
Proof.
  unfold TrimPrefix, HasPrefix. rewrite prefix_append.
  induction p as [|a p IH]; simpl.
  - by rewrite Nat.sub_0_r, substring_all.
  - exact IH.
Qed.

Lemma AuthMiddleware_bearer path tok :
  path ≠ "/health" → tok ≠ "" →
  AuthMiddleware path ("Bearer " +:+ tok) = AuthNext (Some "edge-node") (Some "node").
Proof.
  intros Hp Ht. unfold AuthMiddleware.
  destruct (String.eqb_spec path "/health"); [done|].
  change ("Bearer " +:+ tok =? "")%string with false. cbv iota.
  unfold HasPrefix at 1. rewrite prefix_append. simpl negb. cbv iota.
  rewrite TrimPrefix_append. destruct (String.eqb_spec tok ""); done.
Qed.

(** The middleware lets a request through exactly when it is for "/health" or
    carries an Authorization header made of "Bearer " and a non-empty token.
    No token is compared with anything: every non-empty token is accepted, and
    the caller is always given the user "edge-node" and the role "node".
    Every rejection is a 401. *)
Theorem AuthMiddleware_spec path authHeader :
  ((∃ user role, AuthMiddleware path authHeader = AuthNext user role)
   ↔ path = "/health" ∨ ∃ tok, tok ≠ "" ∧ authHeader = "Bearer " +:+ tok)
  ∧ (path ≠ "/health" →
     ∀ tok, tok ≠ "" →
       AuthMiddleware path ("Bearer " +:+ tok) = AuthNext (Some "edge-node") (Some "node"))
  ∧ (∀ code error, AuthMiddleware path authHeader = AuthAbort code error → code = 401%Z).
Proof.
  split; [|split].
  - split.
    + intros (user & role & Hnext). unfold AuthMiddleware in Hnext.
      destruct (String.eqb_spec path "/health"); [by left|]. right.
      destruct (String.eqb_spec authHeader ""); [done|].
      destruct (HasPrefix authHeader "Bearer ") eqn:Hp; simpl in Hnext; [|done].
      destruct (String.eqb_spec (TrimPrefix authHeader "Bearer ") "") as [|Hne]; [done|].
      exists (TrimPrefix authHeader "Bearer "). split; [done|].
      unfold TrimPrefix. rewrite Hp. by apply prefix_split.
    + intros [->|(tok & Ht & ->)]; [by eexists _, _|].
      destruct (decide (path = "/health")) as [->|Hp]; [by eexists _, _|].
      eexists _, _. by apply AuthMiddleware_bearer.
  - intros Hp tok Ht. by apply AuthMiddleware_bearer.
  - intros code error. unfold AuthMiddleware.
    destruct (String.eqb path "/health"); [done|].
    destruct (String.eqb authHeader ""); [by intros [= <- _]|].
    destruct (HasPrefix authHeader "Bearer "); simpl; [|by intros [= <- _]].
    destruct (String.eqb _ ""); [by intros [= <- _] | done].
Qed.

Lemma AuthMiddleware_spec_witness :
  AuthMiddleware "/api/v1/workloads" "Bearer anything"
  = AuthNext (Some "edge-node") (Some "node").
Proof.
  apply (proj1 (proj2 (AuthMiddleware_spec "/api/v1/workloads" "")));
    [discriminate | discriminate].
Defined.



(** ** The JavaScript orchestrator *)

Lemma truthy_Some s : Js.truthy (Some s) = true ↔ s ≠ "".
Proof. simpl. destruct (String.eqb_spec s ""); naive_solver. Qed.

Lemma authenticate_next now xNodeId xAuthToken (tokens : gmap string Js.TokenInfo) :
  Js.authenticate now xNodeId xAuthToken tokens = None
  ↔ ∃ nodeId tok, xNodeId = Some nodeId ∧ xAuthToken = Some tok
      ∧ nodeId ≠ "" ∧ tok ≠ ""
      ∧ Js.validateToken now nodeId tok tokens = true.
Proof.
  unfold Js.authenticate, Js.truthy, Js.text.
  destruct xNodeId as [n|], xAuthToken as [k|]; simpl;
    try (rewrite ?orb_true_r; split; [done | by intros (? & ? & ? & ? & _)]).
  destruct (String.eqb_spec n ""); simpl; [naive_solver|].
  destruct (String.eqb_spec k ""); simpl; [naive_solver|].
  destruct (Js.validateToken now n k tokens) eqn:Ev; simpl.
  - split; [|done]. intros _. exists n, k. done.
  - split; [done|]. intros (? & ? & [= <-] & [= <-] & _ & _ & ?). congruence.
Qed.

(** Registration through the route needs a name and an address and otherwise
    changes nothing.  It stores the node as REGISTERED and answers with the
    identifier and a token; with these two the node passes [authenticate]
    exactly until the expiry of the token, thirty local calendar days after
    the reading of the clock taken at its issuance; any other token is
    refused with 403, and a request without one of the two headers with
    401. *)
Theorem js_registration_issues_credentials nodeId secret tza now issued created
    bodyName bodyIp caps (o : Js.Orchestrator) :
  (Js.truthy bodyName = false ∨ Js.truthy bodyIp = false →
   Js.routeRegisterNode nodeId secret tza now issued created bodyName bodyIp caps o
   = ((400%Z, Js.ErrorBody "Missing required node information"), o))
  ∧ (∀ nodeName ip,
       bodyName = Some nodeName → bodyIp = Some ip → nodeName ≠ "" → ip ≠ "" →
       let r :=
         Js.routeRegisterNode nodeId secret tza now issued created
           bodyName bodyIp caps o in
       r.1 = (201%Z, Js.RegisteredBody nodeId secret)
       ∧ Js.routeGetNode nodeId r.2
         = (200%Z, Js.NodeBody (Js.mkNode nodeId nodeName ip "REGISTERED"
                                  (default [] caps) now []))
       ∧ (∀ later, nodeId ≠ "" → secret ≠ "" →
            Js.authenticate later (Some nodeId) (Some secret) (Js.oTokens r.2) = None
            ↔ (later ≤ Js.setDatePlus30 tza issued)%Z)
       ∧ (∀ later other, other ≠ secret →
            Js.authenticate later (Some nodeId) (Some other) (Js.oTokens r.2)
            = Some (if Js.truthy (Some nodeId) && Js.truthy (Some other)
                    then (403%Z, Js.ErrorBody "Invalid authentication")
                    else (401%Z, Js.ErrorBody "Authentication required")))
       ∧ ∀ later header,
           Js.authenticate later None header (Js.oTokens r.2)
           = Some (401%Z, Js.ErrorBody "Authentication required")
           ∧ Js.authenticate later header None (Js.oTokens r.2)
             = Some (401%Z, Js.ErrorBody "Authentication required")).
Proof.
  split.
  - intros Hmiss. unfold Js.routeRegisterNode.
    destruct Hmiss as [-> | ->]; simpl; [done|]. by rewrite orb_true_r.
  - intros nodeName ip -> -> Hn Hi r. unfold r, Js.routeRegisterNode.
    rewrite (proj2 (truthy_Some nodeName)), (proj2 (truthy_Some ip)) by done.
    simpl. split; [done|]. split.
    { unfold Js.routeGetNode, Js.getNode. simpl. by rewrite lookup_insert_eq. }
    split; [|split].
    + intros later Hid Hs. rewrite authenticate_next. split.
      * intros (n & k & [= <-] & [= <-] & _ & _ & Hv).
        apply validateToken_true in Hv as (info & Hl & _ & Hle).
        rewrite lookup_insert_eq in Hl. injection Hl as <-. exact Hle.
      * intros Hle. exists nodeId, secret.
        repeat (split; [done|]). apply validateToken_true.
        eexists. rewrite lookup_insert_eq. split; [done|]. split; [done|].
        exact Hle.
    + intros later other Hne. unfold Js.authenticate, Js.truthy, Js.text.
      destruct (String.eqb nodeId ""); simpl; [done|].
      destruct (String.eqb other ""); simpl; [done|].
      unfold Js.validateToken. rewrite lookup_insert_eq. simpl.
      destruct (String.eqb_spec secret other); [congruence | done].
    + intros later header. unfold Js.authenticate. simpl.
      split; [done|]. by rewrite orb_true_r.
Qed.

Lemma js_registration_issues_credentials_witness :
  Js.authenticate 2588400000 (Some "n3") (Some "s3")
    (Js.oTokens (Js.routeRegisterNode "n3" "s3" springForward 0 0 1
                   (Some "edge-3") (Some "10.0.0.3") None sampleOrchestrator).2)
  = None
  ∧ Js.authenticate 2588400001 (Some "n3") (Some "s3")
      (Js.oTokens (Js.routeRegisterNode "n3" "s3" springForward 0 0 1
                     (Some "edge-3") (Some "10.0.0.3") None sampleOrchestrator).2)
    ≠ None.
Proof.
  destruct (proj2 (js_registration_issues_credentials "n3" "s3" springForward 0 0 1
                     (Some "edge-3") (Some "10.0.0.3") None sampleOrchestrator)
              "edge-3" "10.0.0.3" eq_refl eq_refl ltac:(discriminate) ltac:(discriminate))
    as (_ & _ & Hauth & _).
  split.
  - apply Hauth; [discriminate | discriminate | vm_compute; discriminate].
  - intros Hok. apply Hauth in Hok; [|discriminate|discriminate].
    vm_compute in Hok. by apply Hok.
Defined.

(** The status route updates the node named in the path for any caller that
    authenticates, as itself or as another node: the authenticated identifier
    is never compared with the path.  The node gets the given status and a
    fresh [lastSeen]; nothing else in the orchestrator changes.  For a path
    that names no registered node the answer is 500 and nothing changes (the
    read route answers 404 for the same path); without valid credentials
    nothing changes either. *)
Theorem js_status_route now xNodeId xAuthToken target newStatus (o : Js.Orchestrator) :
  newStatus ≠ "" →
  (Js.authenticate now xNodeId xAuthToken (Js.oTokens o) = None →
   (∀ node, Js.oNodes o !! target = Some node →
      let node' := Js.set_lastSeen (Js.set_status node newStatus) now in
      Js.routeUpdateStatus now xNodeId xAuthToken target (Some newStatus) o
      = ((200%Z, Js.NodeBody node'),
         Js.mkOrchestrator (<[target := node']> (Js.oNodes o)) (Js.oWorkloads o)
           (Js.oTokens o) (Js.oMetrics o)))
   ∧ (Js.oNodes o !! target = None →
      Js.routeUpdateStatus now xNodeId xAuthToken target (Some newStatus) o
      = ((500%Z, Js.ErrorBody "Failed to update node status"), o)
      ∧ Js.routeGetNode target o = (404%Z, Js.ErrorBody "Node not found")))
  ∧ (∀ answer, Js.authenticate now xNodeId xAuthToken (Js.oTokens o) = Some answer →
       Js.routeUpdateStatus now xNodeId xAuthToken target (Some newStatus) o = (answer, o)).
Proof.
  intros Hs. unfold Js.routeUpdateStatus. split.
  - intros ->. rewrite (proj2 (truthy_Some newStatus)) by done. simpl.
    unfold Js.updateNodeStatus, Js.routeGetNode, Js.getNode. split.
    + by intros node ->.
    + by intros ->.
  - by intros answer ->.
Qed.

Lemma js_status_route_witness :
  ∃ o',
    Js.routeUpdateStatus 5000 (Some "a") (Some "secret-a") "b" (Some "MAINTENANCE")
      sampleOrchestrator
    = ((200%Z, Js.NodeBody (Js.mkNode "b" "edge-b" "10.0.0.2" "MAINTENANCE" [] 5000 [])), o')
    ∧ Js.oTokens o' !! "b" = None.
Proof.
  destruct (proj1 (js_status_route 5000 (Some "a") (Some "secret-a") "b" "MAINTENANCE"
                     sampleOrchestrator ltac:(discriminate)))
    as [Hknown _]; [vm_compute; reflexivity|].
  eexists. split.
  - apply (Hknown (Js.mkNode "b" "edge-b" "10.0.0.2" "ONLINE" [] 1000 [])).
    vm_compute. reflexivity.
  - vm_compute. reflexivity.
Defined.

(** The life of a node in the JavaScript registry.  A registered node that
    never reports stays REGISTERED under every sweep up to five minutes after
    its registration and is set OFFLINE by any later sweep.  A status update
    writes the given status, refreshes [lastSeen] and so shields the node from
    the sweep for five more minutes, also when the node was OFFLINE.  A status
    update or a removal for an unknown identifier throws and changes
    nothing. *)
Theorem js_node_lifecycle nodeId t nodeInfo (nodes : gmap string Js.Node) :
  let registered :=
    Js.mkNode nodeId (Js.niName nodeInfo) (Js.niIpAddress nodeInfo) "REGISTERED"
      (default [] (Js.niCapabilities nodeInfo)) t [] in
  let nodes1 := (Js.registerNode nodeId t nodeInfo nodes).2 in
  nodes1 !! nodeId = Some registered
  ∧ (∀ now, (now - t ≤ 300000)%Z →
       Js.checkNodesHealth now nodes1 !! nodeId = Some registered)
  ∧ (∀ now, (now - t > 300000)%Z →
       Js.checkNodesHealth now nodes1 !! nodeId
       = Some (Js.set_status registered "OFFLINE"))
  ∧ (∀ now t2 newStatus later,
       (later - t2 ≤ 300000)%Z →
       let nodes2 := Js.checkNodesHealth now nodes1 in
       ∃ node,
         (Js.updateNodeStatus t2 nodeId newStatus nodes2).1 = inl node
         ∧ Js.status node = newStatus ∧ Js.lastSeen node = t2
         ∧ Js.checkNodesHealth later (Js.updateNodeStatus t2 nodeId newStatus nodes2).2
             !! nodeId = Some node)
  ∧ (∀ t2 newStatus,
       nodes !! nodeId = None →
       Js.updateNodeStatus t2 nodeId newStatus nodes
       = (inr ("Node not found: " +:+ nodeId), nodes)
       ∧ Js.removeNode nodeId nodes = (inr ("Node not found: " +:+ nodeId), nodes)).
Proof.
  simpl. split; [apply lookup_insert_eq|]. split; [|split; [|split]].
  - intros now Hage. unfold Js.checkNodesHealth.
    rewrite lookup_fmap, lookup_insert_eq. simpl. rewrite Js_checkOneNode_cases.
    simpl. destruct (decide _) as [[? _]|_]; [lia | done].
  - intros now Hage. unfold Js.checkNodesHealth.
    rewrite lookup_fmap, lookup_insert_eq. simpl. rewrite Js_checkOneNode_cases.
    simpl. destruct (decide _) as [_|Hn]; [done|]. destruct Hn. split; [lia | done].
  - intros now t2 newStatus later Hage. unfold Js.updateNodeStatus, Js.checkNodesHealth.
    rewrite lookup_fmap, lookup_insert_eq. simpl.
    eexists. split; [reflexivity|]. split; [reflexivity|]. split; [reflexivity|].
    rewrite lookup_fmap, lookup_insert_eq. simpl. f_equal.
    rewrite Js_checkOneNode_cases. destruct (decide _) as [[Hst _]|_]; [|done].
    simpl in Hst. lia.
  - intros t2 newStatus Hn. unfold Js.updateNodeStatus, Js.removeNode. by rewrite Hn.
Qed.

Lemma js_node_lifecycle_witness :
  Js.checkNodesHealth 400000
    (Js.registerNode "n3" 50000 (Js.mkNodeInfo "edge-3" "10.0.0.3" None) ∅).2 !! "n3"
  = Some (Js.mkNode "n3" "edge-3" "10.0.0.3" "OFFLINE" [] 50000 []).
Proof.
  destruct (js_node_lifecycle "n3" 50000 (Js.mkNodeInfo "edge-3" "10.0.0.3" None) ∅)
    as (_ & _ & Hoff & _).
  apply Hoff. lia.
Defined.






(** Metrics recorded for a node are read back with the time stamp of the
    orchestrator's clock: a "timestamp" sent by the client is overwritten.
    The route stores them under the identifier of the path for any caller that
    authenticates, whether or not a node of that name is registered; metrics
    of other nodes are untouched, and a node without recorded metrics reads
    as 404. *)
Theorem js_metrics_round_trip now xNodeId xAuthToken target
    (metrics : gmap string Js.jsValue) (o : Js.Orchestrator) :
  Js.authenticate now xNodeId xAuthToken (Js.oTokens o) = None →
  let r := Js.routeRecordMetrics now xNodeId xAuthToken target metrics o in
  r.1 = (200%Z, Js.SuccessBody)
  ∧ Js.routeGetMetrics target r.2
    = (200%Z, Js.MetricsBody (<["timestamp" := Js.JsDate now]> metrics))
  ∧ (∀ sent,
       (Js.routeRecordMetrics now xNodeId xAuthToken target
          (<["timestamp" := sent]> metrics) o).2 = r.2)
  ∧ (∀ other, other ≠ target → Js.routeGetMetrics other r.2 = Js.routeGetMetrics other o)
  ∧ (Js.oMetrics o !! target = None →
     Js.routeGetMetrics target o = (404%Z, Js.ErrorBody "Metrics not found")).
Proof.
  intros Hauth r. unfold r, Js.routeRecordMetrics. rewrite Hauth. simpl.
  unfold Js.routeGetMetrics, Js.getNodeMetrics. simpl.
  split; [done|]. rewrite lookup_insert_eq. split; [done|]. split; [|split].
  - intros sent. by rewrite insert_insert_eq.
  - intros other Hne. by rewrite lookup_insert_ne.
  - by intros ->.
Qed.

Lemma js_metrics_round_trip_witness :
  Js.routeGetMetrics "unregistered"
    (Js.routeRecordMetrics 5000 (Some "a") (Some "secret-a") "unregistered"
       {[ "timestamp" := Js.JsDate 1; "cpu" := Js.JsJSON "0.5" ]} sampleOrchestrator).2
  = (200%Z, Js.MetricsBody (<["timestamp" := Js.JsDate 5000]>
                              {[ "timestamp" := Js.JsDate 1; "cpu" := Js.JsJSON "0.5" ]})).
Proof.
  refine (proj1 (proj2 (js_metrics_round_trip 5000 (Some "a") (Some "secret-a")
                          "unregistered" _ sampleOrchestrator _))).
  vm_compute. reflexivity.
Defined.

(** ** Listings *)

(** [ListNodes] and [ListWorkloads] answer with a complete snapshot: the list
    holds exactly the values stored in the map, one per identifier. *)
Theorem listings_are_complete (nodes : gmap string EdgeNode)
    (workloads : gmap string Workload) :
  (∃ listed, ListNodes nodes = NodeList listed
     ∧ length listed = size nodes
     ∧ ∀ node, node ∈ listed ↔ ∃ k, nodes !! k = Some node)
  ∧ (∃ listed, ListWorkloads workloads = WorkloadList listed
       ∧ length listed = size workloads
       ∧ ∀ w, w ∈ listed ↔ ∃ k, workloads !! k = Some w).
Proof.
  split; eexists; (split; [reflexivity|]);
    (split; [by rewrite length_fmap, length_map_to_list|]).
  - intros node. rewrite list_elem_of_fmap. split.
    + intros ([k n] & -> & Hin). exists k. by apply elem_of_map_to_list.
    + intros [k Hk]. exists (k, node). split; [done | by apply elem_of_map_to_list].
  - intros w. rewrite list_elem_of_fmap. split.
    + intros ([k n] & -> & Hin). exists k. by apply elem_of_map_to_list.
    + intros [k Hk]. exists (k, w). split; [done | by apply elem_of_map_to_list].
Qed.
